(** * CampusERP roster: a shallow embedding of [src/app.jsx]

    The React component [ERPApp] keeps an in-memory roster of student
    records ([students]), an admission form ([form]) and a few view
    variables.  This development embeds the state, the three event
    handlers that change the roster ([handleAdmit], [handlePayFees],
    [toggleHostel]), the derived [metrics] and the [filtered] list, and
    states the roster properties over those definitions.

    Conventions of the embedding:
    - a JavaScript value is a [jsval]; numbers are the integers (exact in
      an IEEE double up to 2^53) together with [JNaN], and a theorem that
      states a sum assumes that the values stay within that bound;
    - strings are byte strings and case folding is the ASCII one; a
      theorem that compares letter case assumes ASCII text;
    - [useState] cells are the fields of [AppState]; a handler maps the
      state before the event to an [Outcome]: the [alert] it raised, if
      any, and the state after it;
    - [uid()] and [today()] read the environment (random generator and
      clock); their results are explicit arguments of [handleAdmit]. *)

From Stdlib Require Import ZArith List Ascii String Bool Lia Permutation.
From stdpp Require Import base tactics option list strings pretty gmap fin_maps.

Local Open Scope string_scope.

(** ** JavaScript values and the operators the component uses *)

Inductive jsval : Type :=
| JUndef
| JNull
| JNum (n : Z)
| JNaN
| JStr (s : string)
| JFun (fname : string)      (* a built-in function object *)
| JObjectPrototype.          (* the object [Object.prototype] *)

#[global] Instance jsval_eq_dec : EqDecision jsval.
Proof. solve_decision. Defined.

(** [Boolean(v)]: the test made by [if (v)], [!v], [v || w], [filter(s => v)]. *)
Definition truthy (v : jsval) : bool :=
  match v with
  | JUndef | JNull | JNaN => false
  | JNum n => negb (n =? 0)%Z
  | JStr s => negb (String.eqb s "")
  | JFun _ | JObjectPrototype => true
  end.

(** [a || b] *)
Definition js_or (a b : jsval) : jsval := if truthy a then a else b.

(** [a === b] *)
Definition strict_eq (a b : jsval) : bool :=
  match a, b with
  | JUndef, JUndef | JNull, JNull | JObjectPrototype, JObjectPrototype => true
  | JNum x, JNum y => (x =? y)%Z
  | JStr x, JStr y => String.eqb x y
  | JFun x, JFun y => String.eqb x y
  | _, _ => false
  end.

(** Source text of a built-in function, as [Function.prototype.toString]
    prints it (the layout of V8; the white space is left to the engine). *)
Definition funText (fname : string) : string :=
  "function " ++ fname ++ "() { [native code] }".

(** [String(v)] *)
Definition ToString (v : jsval) : string :=
  match v with
  | JUndef => "undefined"
  | JNull => "null"
  | JNum n => pretty n
  | JNaN => "NaN"
  | JStr s => s
  | JFun f => funText f
  | JObjectPrototype => "[object Object]"
  end.

Definition is_digit (c : ascii) : bool :=
  ((48 <=? nat_of_ascii c) && (nat_of_ascii c <=? 57))%nat.

Definition is_space (c : ascii) : bool :=
  let n := nat_of_ascii c in
  ((n =? 32) || ((9 <=? n) && (n <=? 13)))%nat.

Fixpoint trim_left (s : string) : string :=
  match s with
  | String c r => if is_space c then trim_left r else s
  | EmptyString => EmptyString
  end.

Fixpoint trim_right (s : string) : string :=
  match s with
  | String c r =>
      match trim_right r with
      | EmptyString => if is_space c then EmptyString else String c EmptyString
      | r' => String c r'
      end
  | EmptyString => EmptyString
  end.

Fixpoint digits_value (acc : Z) (s : string) : option Z :=
  match s with
  | EmptyString => Some acc
  | String c r =>
      if is_digit c
      then digits_value (10 * acc + Z.of_nat (nat_of_ascii c - 48))%Z r
      else None
  end.

Definition unsigned_literal (s : string) : option Z :=
  match s with
  | EmptyString => None
  | _ => digits_value 0 s
  end.

(** [Number(s)] for a string: surrounding white space is dropped, the
    empty string is 0, a signed run of decimal digits is that integer.
    Every other string is [JNaN] here: literals with a fraction, an
    exponent or a radix prefix denote numbers outside the integer model.
    The result is that of the program when it is an integer within 2^53
    in magnitude, and when the text starts with a letter other than [I];
    the theorems read no other case. *)
Definition StringToNumber (s : string) : jsval :=
  match trim_right (trim_left s) with
  | EmptyString => JNum 0
  | String "-" r => from_option (fun n => JNum (- n)) JNaN (unsigned_literal r)
  | String "+" r => from_option JNum JNaN (unsigned_literal r)
  | t => from_option JNum JNaN (unsigned_literal t)
  end.

(** [Number(v)] *)
Definition ToNumber (v : jsval) : jsval :=
  match v with
  | JUndef => JNaN
  | JNull => JNum 0
  | JNum n => JNum n
  | JNaN => JNaN
  | JStr s => StringToNumber s
  | JFun _ | JObjectPrototype => JNaN
  end.

(** [a + b] on two numbers.  Integers are added exactly, which is the
    addition of the program whenever the operands and the sum are
    within 2^53 in magnitude. *)
Definition num_add (a b : jsval) : jsval :=
  match a, b with
  | JNum x, JNum y => JNum (x + y)
  | _, _ => JNaN
  end.

Definition is_stringish (v : jsval) : bool :=
  match v with
  | JStr _ | JFun _ | JObjectPrototype => true
  | _ => false
  end.

(** [a + b]: concatenation as soon as one operand is a string or an
    object (whose primitive value is a string), addition otherwise. *)
Definition js_add (a b : jsval) : jsval :=
  if is_stringish a || is_stringish b
  then JStr (ToString a ++ ToString b)
  else num_add (ToNumber a) (ToNumber b).

(** ASCII [toLowerCase]: the [toLowerCase] of the program on ASCII text. *)
Definition lower_ascii (c : ascii) : ascii :=
  let n := nat_of_ascii c in
  if ((65 <=? n) && (n <=? 90))%nat then ascii_of_nat (n + 32) else c.

Fixpoint toLowerCase (s : string) : string :=
  match s with
  | EmptyString => EmptyString
  | String c r => String (lower_ascii c) (toLowerCase r)
  end.

Fixpoint starts_with (q t : string) : bool :=
  match q, t with
  | EmptyString, _ => true
  | String a q', String b t' => Ascii.eqb a b && starts_with q' t'
  | String _ _, EmptyString => false
  end.

(** [t.includes(q)] *)
Fixpoint includes (t q : string) : bool :=
  starts_with q t ||
  match t with
  | EmptyString => false
  | String _ t' => includes t' q
  end.

(** [parts.join(sep)] *)
Fixpoint join (sep : string) (parts : list string) : string :=
  match parts with
  | [] => EmptyString
  | [p] => p
  | p :: rest => p ++ sep ++ join sep rest
  end.

(** ** Plain objects used as dictionaries

    [{}] inherits from [Object.prototype]: reading a key that is not an
    own property finds the inherited member of that name, if any. *)

Definition objectPrototypeMethods : list string :=
  [ "__defineGetter__"; "__defineSetter__"; "__lookupGetter__";
    "__lookupSetter__"; "hasOwnProperty"; "isPrototypeOf";
    "propertyIsEnumerable"; "toLocaleString"; "toString"; "valueOf" ].

Definition protoGet (k : string) : jsval :=
  if String.eqb k "__proto__" then JObjectPrototype
  else if String.eqb k "constructor" then JFun "Object"
  else if existsb (String.eqb k) objectPrototypeMethods then JFun k
  else JUndef.

(** [o[k]] *)
Definition getProp (o : gmap string jsval) (k : string) : jsval :=
  default (protoGet k) (o !! k).

(** [o[k] = v] for a primitive [v] (what [js_add] returns): an own
    property is written, except for ["__proto__"], whose inherited setter
    ignores primitive values. *)
Definition setProp (o : gmap string jsval) (k : string) (v : jsval)
  : gmap string jsval :=
  if String.eqb k "__proto__" then o else <[k := v]> o.

(** ** Data model *)

Record Student : Type := mkStudent {
  id : string;
  name : string;
  branch : string;
  year : jsval;
  hostel : jsval;
  feesPaid : jsval;
  admissionDate : string
}.

#[global] Instance Student_eq_dec : EqDecision Student.
Proof. solve_decision. Defined.

(** [{ ...s, feesPaid: v }] *)
Definition with_feesPaid (s : Student) (v : jsval) : Student :=
  mkStudent (id s) (name s) (branch s) (year s) (hostel s) v (admissionDate s).

(** [{ ...s, hostel: v }] *)
Definition with_hostel (s : Student) (v : jsval) : Student :=
  mkStudent (id s) (name s) (branch s) (year s) v (feesPaid s) (admissionDate s).

Module Form.
Record t : Type := mk {
  name : string;
  branch : string;
  year : jsval;
  hostel : string;
  feesPaid : jsval
}.

(** [{ name: '', branch: '', year: 1, hostel: '', feesPaid: 0 }] *)
Definition blank : t := mk "" "" (JNum 1) "" (JNum 0).

(** The [onChange] updaters of the four inputs of the form. *)
Definition setName (v : string) (f : t) : t :=
  mk v (branch f) (year f) (hostel f) (feesPaid f).
Definition setBranch (v : string) (f : t) : t :=
  mk (name f) v (year f) (hostel f) (feesPaid f).
Definition setYear (v : string) (f : t) : t :=
  mk (name f) (branch f) (JStr v) (hostel f) (feesPaid f).
Definition setHostel (v : string) (f : t) : t :=
  mk (name f) (branch f) (year f) v (feesPaid f).
End Form.

Record AppState : Type := mkApp {
  role : string;
  students : list Student;
  query : string;
  activeTab : string;
  form : Form.t;
  selectedStudentId : jsval
}.

Definition with_students (st : AppState) (l : list Student) : AppState :=
  mkApp (role st) l (query st) (activeTab st) (form st) (selectedStudentId st).

(** The three seeded records; their ids are three draws of [uid()]. *)
Definition initialStudents (id1 id2 id3 : string) : list Student :=
  [ mkStudent id1 "Aisha Verma" "Computer Engg" (JNum 1) (JStr "A") (JNum 15000) "2025-06-15";
    mkStudent id2 "Rohit Sharma" "Electronics" (JNum 2) (JStr "B") (JNum 20000) "2024-08-21";
    mkStudent id3 "Maya Nair" "Mechanical" (JNum 3) JNull (JNum 0) "2023-07-01" ].

Definition initialState (id1 id2 id3 : string) : AppState :=
  mkApp "Admin" (initialStudents id1 id2 id3) "" "dashboard" Form.blank
        (js_or (JStr id1) JNull).

(** What a handler did: the message it passed to [alert], if any, and
    the component state afterwards. *)
Record Outcome : Type := mkOutcome {
  alerted : option string;
  after : AppState
}.

(** ** Derived metrics *)

Definition totalStudents (l : list Student) : nat := length l.

Definition totalFees (l : list Student) : jsval :=
  fold_left (fun s x => num_add s (ToNumber (js_or (feesPaid x) (JNum 0)))) l (JNum 0).

Definition hostelOccupancy (l : list Student) : nat :=
  length (List.filter (fun s => truthy (hostel s)) l).

(** One step of the reducer:
    [if (s.hostel) acc[s.hostel] = (acc[s.hostel] || 0) + 1; return acc]. *)
Definition occupancyStep (acc : gmap string jsval) (s : Student)
  : gmap string jsval :=
  if truthy (hostel s)
  then
    let k := ToString (hostel s) in
    setProp acc k (js_add (js_or (getProp acc k) (JNum 0)) (JNum 1))
  else acc.

Definition occupancyByHostel (l : list Student) : gmap string jsval :=
  fold_left occupancyStep l ∅.

Record Metrics : Type := mkMetrics {
  m_totalStudents : nat;
  m_totalFees : jsval;
  m_hostelOccupancy : nat;
  m_occupancyByHostel : gmap string jsval
}.

Definition metrics (st : AppState) : Metrics :=
  mkMetrics (totalStudents (students st)) (totalFees (students st))
            (hostelOccupancy (students st)) (occupancyByHostel (students st)).

(** ** Event handlers *)

(** [handleAdmit]; [newId] is the value of [uid()] and [now] the value of
    [today()]. *)
Definition handleAdmit (newId now : string) (st : AppState) : Outcome :=
  let f := form st in
  if negb (truthy (JStr (Form.name f))) || negb (truthy (JStr (Form.branch f)))
  then mkOutcome (Some "Name and branch required") st
  else
    let newStudent :=
      mkStudent newId (Form.name f) (Form.branch f) (Form.year f)
                (JStr (Form.hostel f)) (Form.feesPaid f) now in
    mkOutcome None
      (mkApp (role st) (newStudent :: students st) (query st) "students"
             Form.blank (selectedStudentId st)).

(** The updater passed to [setStudents] by [handlePayFees]. *)
Definition payFeesUpdate (studentId : string) (amount : jsval)
  (prev : list Student) : list Student :=
  List.map (fun s =>
    if String.eqb (id s) studentId
    then with_feesPaid s
           (num_add (ToNumber (js_or (feesPaid s) (JNum 0))) (ToNumber amount))
    else s) prev.

Definition handlePayFees (studentId : string) (amount : jsval) (st : AppState)
  : Outcome :=
  mkOutcome None (with_students st (payFeesUpdate studentId amount (students st))).

(** The updater passed to [setStudents] by [toggleHostel]; the parameter
    default [hostelName = 'A'] applies when the argument is [undefined]. *)
Definition toggleHostelUpdate (studentId : string) (hostelName : jsval)
  (prev : list Student) : list Student :=
  let hostelName := match hostelName with JUndef => JStr "A" | v => v end in
  List.map (fun s =>
    if String.eqb (id s) studentId
    then with_hostel s (if strict_eq (hostel s) hostelName then JNull else hostelName)
    else s) prev.

Definition toggleHostel (studentId : string) (hostelName : jsval) (st : AppState)
  : Outcome :=
  mkOutcome None
    (with_students st (toggleHostelUpdate studentId hostelName (students st))).

(** The [onClick] of the Pay button; [student] is the record found at
    render time and [value] the text of the amount input. *)
Definition payButtonClick (student : Student) (value : string) (st : AppState)
  : Outcome :=
  let amt := js_or (JStr value) (JNum 0) in
  if negb (truthy amt) then mkOutcome (Some "Enter amount") st
  else handlePayFees (id student) amt st.

(** ** Filtered list *)

Definition matches (q : string) (s : Student) : bool :=
  includes (toLowerCase (join " " [name s; branch s; id s])) (toLowerCase q).

Definition filtered (st : AppState) : list Student :=
  List.filter (matches (query st)) (students st).

(** ** Events and runs of the component *)

Inductive FormEdit : Type :=
| EditName (v : string)
| EditBranch (v : string)
| EditYear (v : string)
| EditHostel (v : string)
| ResetForm.

Definition applyEdit (e : FormEdit) (f : Form.t) : Form.t :=
  match e with
  | EditName v => Form.setName v f
  | EditBranch v => Form.setBranch v f
  | EditYear v => Form.setYear v f
  | EditHostel v => Form.setHostel v f
  | ResetForm => Form.blank
  end.

Definition with_form (st : AppState) (f : Form.t) : AppState :=
  mkApp (role st) (students st) (query st) (activeTab st) f (selectedStudentId st).

Inductive Event : Type :=
| Admission (newId now : string)
| PayFees (studentId : string) (amount : jsval)
| ToggleHostel (studentId : string) (hostelName : jsval)
| Edit (e : FormEdit).

Definition dispatch (ev : Event) (st : AppState) : Outcome :=
  match ev with
  | Admission newId now => handleAdmit newId now st
  | PayFees sid amount => handlePayFees sid amount st
  | ToggleHostel sid h => toggleHostel sid h st
  | Edit e => mkOutcome None (with_form st (applyEdit e (form st)))
  end.

Definition run (evs : list Event) (st : AppState) : AppState :=
  fold_left (fun st ev => after (dispatch ev st)) evs st.

Definition ids (st : AppState) : list string := List.map id (students st).

(** Every admission of the run draws an id that no record of the roster
    carries at that moment. *)
Fixpoint freshDraws (evs : list Event) (st : AppState) : Prop :=
  match evs with
  | [] => True
  | ev :: rest =>
      match ev with
      | Admission newId _ => ~ In newId (ids st)
      | _ => True
      end /\ freshDraws rest (after (dispatch ev st))
  end.

(** A run of payments, and the total paid to one id in it. *)
Definition runPayments (ps : list (string * jsval)) (st : AppState) : AppState :=
  fold_left (fun st p => after (handlePayFees (fst p) (snd p) st)) ps st.

Definition amountOf (amount : jsval) : Z :=
  match ToNumber amount with JNum a => a | _ => 0%Z end.

Fixpoint paidTo (sid : string) (ps : list (string * jsval)) : Z :=
  match ps with
  | [] => 0%Z
  | (i, a) :: rest =>
      ((if String.eqb sid i then amountOf a else 0) + paidTo sid rest)%Z
  end.

(** ** Vocabulary of the roster properties *)

(** A handler failed when it raised an alert. *)
Definition failed (o : Outcome) : Prop := alerted o <> None.

(** The hostel a field value denotes: none for [null] and for the empty
    string of an untouched form input (both falsy), the label otherwise. *)
Definition label_of (h : jsval) : option string :=
  if truthy h then Some (ToString h) else None.

(** An amount that is a positive number. *)
Definition positiveAmount (amount : jsval) : Prop :=
  exists a, ToNumber amount = JNum a /\ (0 < a)%Z.


(** [t] contains [q] as a substring, letter case ignored. *)
Definition ci_contains (t q : string) : Prop :=
  exists pre u post, t = pre ++ u ++ post /\ toLowerCase u = toLowerCase q.

(** The text searched according to the wording "concatenated name,
    branch, and id", and the text the component searches. *)
Definition concatenatedText (s : Student) : string := name s ++ branch s ++ id s.
Definition joinedText (s : Student) : string := name s ++ " " ++ branch s ++ " " ++ id s.

(** Sum of the numeric values of a dictionary (other values count 0). *)
Definition countOf (v : jsval) : Z := match v with JNum n => n | _ => 0%Z end.

Definition valuesSum (o : gmap string jsval) : Z :=
  map_fold (fun _ v acc => (countOf v + acc)%Z) 0%Z o.

(** Keys that a fresh object inherits. *)
Definition inheritedKey (k : string) : bool := truthy (protoGet k).

(** Every value is a positive count. *)
Definition allCounts (o : gmap string jsval) : Prop :=
  forall k v, o !! k = Some v -> exists c, v = JNum c /\ (0 < c)%Z.

(** No label in use is the name of an inherited member. *)
Definition safeLabels (l : list Student) : Prop :=
  forall s, In s l -> truthy (hostel s) = true ->
            inheritedKey (ToString (hostel s)) = false.

(** What [toggleHostel] does to one record, for a label [h] that is not
    [undefined]. *)
Definition toggled (sid : string) (h : jsval) (s : Student) : Student :=
  if String.eqb (id s) sid
  then with_hostel s (if strict_eq (hostel s) h then JNull else h)
  else s.



(** ** The records and states of the scenarios *)

(** The blank form with name, branch and year filled in. *)
Definition zaraForm : Form.t := Form.mk "Zara Khan" "Civil" (JNum 2) "" (JNum 0).

Definition emptyStore (f : Form.t) : AppState :=
  mkApp "Admin" [] "" "admissions" f JNull.

Definition zara (h fees : jsval) : Student :=
  mkStudent "Z1" "Zara Khan" "Civil" (JNum 2) h fees "2025-01-10".

Definition storeOf (l : list Student) : AppState :=
  mkApp "Admin" l "" "students" Form.blank JNull.

(** ** The rest of the component: helpers, panels and buttons *)

(** ASCII [toUpperCase]. *)
Definition upper_ascii (c : ascii) : ascii :=
  let n := nat_of_ascii c in
  if ((97 <=? n) && (n <=? 122))%nat then ascii_of_nat (n - 32) else c.

Fixpoint toUpperCase (s : string) : string :=
  match s with
  | EmptyString => EmptyString
  | String c r => String (upper_ascii c) (toUpperCase r)
  end.

(** [s.slice(a, b)] for indices [0 <= a <= b]. *)
Definition slice (a b : nat) (s : string) : string := substring a (b - a) s.

(** [uid]; [randomText] is the value of [Math.random().toString(36)]. *)
Definition uid (randomText : string) : string :=
  toUpperCase (slice 2 9 randomText).

(** The two divisors computed by [Sparkbar] for integer values:
    [Math.max(...values, 1)] and [values.length - 1 || 1]. *)
Definition sparkMax (values : list Z) : Z := fold_right Z.max 1%Z values.

Definition sparkStepDivisor (values : list Z) : Z :=
  match js_or (JNum (Z.of_nat (length values) - 1)) (JNum 1) with
  | JNum n => n
  | _ => 1%Z
  end.

Definition newline : string := String (ascii_of_nat 10) EmptyString.

(** The three characters that precede the amount in the receipt
    template of the source file. *)
Definition currencyMark : string := "â‚¹".

(** [generateReceipt]; [now] is the value of [today()]. *)
Definition generateReceipt (student : Student) (now : string) : string :=
  "Receipt" ++ newline ++
  "ID: " ++ id student ++ newline ++
  "Name: " ++ name student ++ newline ++
  "Amount Paid: " ++ currencyMark ++ ToString (feesPaid student) ++ newline ++
  "Date: " ++ now.

(** [students.find(s => s.id === selectedStudentId)] *)
Definition findSelected (sel : jsval) (l : list Student) : option Student :=
  List.find (fun s => strict_eq (JStr (id s)) sel) l.

(** The finance panel: not rendered ([None]) when [selectedStudentId] is
    falsy; otherwise rendered from the record found, and rendering reads
    [student.name], which throws when nothing was found ([Some None]). *)
Definition financePanel (st : AppState) : option (option Student) :=
  if truthy (selectedStudentId st)
  then Some (findSelected (selectedStudentId st) (students st))
  else None.

(** The two places that print "No allocations yet": the Hostel Summary
    card tests [Object.entries(metrics.occupancyByHostel).length], the
    Hostel tab tests [students.filter(s => s.hostel).length === 0]. *)
Definition summaryShowsNoAllocations (st : AppState) : bool :=
  negb (truthy (JNum (Z.of_nat (length (map_to_list (m_occupancyByHostel (metrics st))))))).

Definition hostelTabShowsNoAllocations (st : AppState) : bool :=
  (length (List.filter (fun s => truthy (hostel s)) (students st)) =? 0)%nat.

Definition with_query (st : AppState) (q : string) : AppState :=
  mkApp (role st) (students st) q (activeTab st) (form st) (selectedStudentId st).

Definition with_role (st : AppState) (r : string) : AppState :=
  mkApp r (students st) (query st) (activeTab st) (form st) (selectedStudentId st).

Definition with_activeTab (st : AppState) (tab : string) : AppState :=
  mkApp (role st) (students st) (query st) tab (form st) (selectedStudentId st).

Definition with_selected (st : AppState) (v : jsval) : AppState :=
  mkApp (role st) (students st) (query st) (activeTab st) (form st) v.

(** What the user can do on the page, beyond the handlers of [Event]. *)
Inductive UiEvent : Type :=
| Handler (ev : Event)
| TypeQuery (v : string)
| ChooseRole (r : string)
| OpenTab (tab : string)
| SelectOption (v : string)
| ReceiptButton (s : Student)
| ToggleAButton (s : Student)
| ReleaseButton (s : Student)
| AssignButton (label : string)
| PayButton (value : string).

Definition uiDispatch (e : UiEvent) (st : AppState) : Outcome :=
  match e with
  | Handler ev => dispatch ev st
  | TypeQuery v => mkOutcome None (with_query st v)
  | ChooseRole r => mkOutcome None (with_role st r)
  | OpenTab tab => mkOutcome None (with_activeTab st tab)
  | SelectOption v => mkOutcome None (with_selected st (JStr v))
  | ReceiptButton s =>
      mkOutcome None (with_activeTab (with_selected st (JStr (id s))) "finance")
  | ToggleAButton s => toggleHostel (id s) (JStr "A") st
  | ReleaseButton s => toggleHostel (id s) (hostel s) st
  | AssignButton label =>
      if truthy (selectedStudentId st)
      then toggleHostel (ToString (selectedStudentId st)) (JStr label) st
      else mkOutcome None st
  | PayButton value =>
      match financePanel st with
      | Some (Some student) => payButtonClick student value st
      | _ => mkOutcome None st
      end
  end.

(** The event is one that the page, as rendered in state [st], offers:
    a select lists the empty option and one option per record, the row
    buttons exist for the rows shown, the Pay button for the record
    of the finance panel. *)
Definition offered (e : UiEvent) (st : AppState) : Prop :=
  match e with
  | Handler _ | TypeQuery _ => True
  | ChooseRole r => In r ["Admin"; "Staff"; "Student"]
  | OpenTab tab => In tab ["dashboard"; "students"; "admissions"; "hostel"; "finance"]
  | SelectOption v =>
      (activeTab st = "hostel" \/ activeTab st = "finance") /\
      (v = "" \/ In v (ids st))
  | ReceiptButton s => activeTab st = "students" /\ In s (filtered st)
  | ToggleAButton s =>
      activeTab st = "students" /\ In s (filtered st) /\ role st <> "Student"
  | ReleaseButton s =>
      activeTab st = "hostel" /\ In s (students st) /\ truthy (hostel s) = true
  | AssignButton label => activeTab st = "hostel" /\ In label ["A"; "B"]
  | PayButton _ =>
      activeTab st = "finance" /\ exists student, financePanel st = Some (Some student)
  end.

Definition uiRun (evs : list UiEvent) (st : AppState) : AppState :=
  fold_left (fun st e => after (uiDispatch e st)) evs st.

Fixpoint allOffered (evs : list UiEvent) (st : AppState) : Prop :=
  match evs with
  | [] => True
  | e :: rest => offered e st /\ allOffered rest (after (uiDispatch e st))
  end.

(** A value of type number. *)
Definition isNumber (v : jsval) : bool :=
  match v with
  | JNum _ | JNaN => true
  | _ => false
  end.

(** The balance a record contributes to [totalFees]: its [feesPaid]
    when that is an integer, 0 when it is [NaN]. *)
Definition balanceOf (s : Student) : Z := countOf (feesPaid s).

Definition sumBalances (l : list Student) : Z :=
  fold_right (fun s acc => (balanceOf s + acc)%Z) 0%Z l.

(** Number of records carrying an id, and of records holding a label. *)
Definition countId (sid : string) (l : list Student) : nat :=
  length (List.filter (fun s => String.eqb (id s) sid) l).

Definition countLabel (k : string) (l : list Student) : nat :=
  length (List.filter (fun s => bool_decide (label_of (hostel s) = Some k)) l).

(** The record with a falsy hostel replaced by [null]. *)
Definition nullIfFalsy (s : Student) : Student :=
  if truthy (hostel s) then s else with_hostel s JNull.

(** The form keeps [feesPaid] 0 and every balance is of type number. *)
Definition numbersOnly (st : AppState) : Prop :=
  Form.feesPaid (form st) = JNum 0 /\
  forall s, In s (students st) -> isNumber (feesPaid s) = true.

(** Records with the id that hold the label, and that hold no hostel. *)
Definition countHolding (sid L : string) (l : list Student) : nat :=
  length (List.filter
            (fun s => String.eqb (id s) sid && strict_eq (hostel s) (JStr L)) l).

Definition countWithout (sid : string) (l : list Student) : nat :=
  length (List.filter
            (fun s => String.eqb (id s) sid && negb (truthy (hostel s))) l).

(** The fields of a record that no handler writes. *)
Definition sameCore (s s' : Student) : Prop :=
  id s' = id s /\ name s' = name s /\ branch s' = branch s /\
  year s' = year s /\ admissionDate s' = admissionDate s.

(** [selectedStudentId] is [null], the empty option, or the id of a
    record of the roster. *)
Definition selectionValid (st : AppState) : Prop :=
  selectedStudentId st = JNull \/
  exists v, selectedStudentId st = JStr v /\ (v = "" \/ In v (ids st)).

Fixpoint hasNewline (s : string) : bool :=
  match s with
  | EmptyString => false
  | String c r => Ascii.eqb c (ascii_of_nat 10) || hasNewline r
  end.

(** ** The domain on which the number and text operations are exact

    [num_add] adds integers exactly, and the program adds IEEE doubles:
    the two agree whenever the operands and the sum are integers of
    magnitude at most 2^53, which every double represents.  [ToNumber]
    is [Number()] on a string whenever it returns such an integer.
    [toLowerCase] is [String.prototype.toLowerCase] on ASCII text.  The
    theorems that state a sum or a letter-case comparison carry these
    bounds as hypotheses. *)

(** 2^53 *)
Definition maxSafe : Z := 9007199254740992.

Definition safeInteger (n : Z) : Prop := (- maxSafe <= n <= maxSafe)%Z.

(** An amount that [Number()] converts to an integer within the bound:
    such a number itself, or a decimal integer literal for one. *)
Definition safeAmount (amount : jsval) : Prop :=
  exists a, ToNumber amount = JNum a /\ safeInteger a.

(** The balance [f] of a record with id [sid], and every balance it goes
    through during the payments [ps], is within the bound. *)
Fixpoint safeBalances (sid : string) (f : Z) (ps : list (string * jsval)) : Prop :=
  safeInteger f /\
  match ps with
  | [] => True
  | (i, a) :: rest =>
      safeBalances sid (f + (if String.eqb sid i then amountOf a else 0))%Z rest
  end.

(** A [feesPaid] that is [NaN] or an integer within the bound. *)
Definition safeBalance (v : jsval) : Prop :=
  v = JNaN \/ exists f, v = JNum f /\ safeInteger f.

(** Every balance of the roster, and every running total of the fold of
    [totalFees] started at [acc], is within the bound. *)
Fixpoint safeTotals (acc : Z) (l : list Student) : Prop :=
  safeInteger acc /\
  match l with
  | [] => True
  | x :: rest => safeBalance (feesPaid x) /\ safeTotals (acc + balanceOf x)%Z rest
  end.

Fixpoint isAscii (s : string) : bool :=
  match s with
  | EmptyString => true
  | String c r => (nat_of_ascii c <? 128)%nat && isAscii r
  end.

Definition is_letter (c : ascii) : bool :=
  let n := nat_of_ascii c in
  (((65 <=? n) && (n <=? 90)) || ((97 <=? n) && (n <=? 122)))%nat.

(** The text starts, after ASCII white space, with a letter other than
    [I]: no numeric literal starts so, and [Number()] gives [NaN]. *)
Definition notNumericText (s : string) : bool :=
  match trim_left s with
  | String c _ => is_letter c && negb (Ascii.eqb c "I")
  | EmptyString => false
  end.

(** A value that [Number()] certainly converts to [NaN]. *)
Definition notNumeric (v : jsval) : Prop :=
  v = JUndef \/ v = JNaN \/ exists s, v = JStr s /\ notNumericText s = true.

(** ** The menu of [src/script.js]

    Each menu item is represented by its [classList], a set of class
    names.  The click listener of item [k] removes ["active"] from every
    item and adds it to the clicked one. *)
Definition menuClick (k : nat) (items : list (gset string)) : list (gset string) :=
  let cleared := List.map (fun c => c ∖ {["active"]}) items in
  match cleared !! k with
  | Some c => <[k := c ∪ {["active"]}]> cleared
  | None => cleared
  end.

(** * Properties *)

(** ** Strings: [includes] and [toLowerCase] *)

Section StringFacts.

Lemma starts_with_spec (q t : string) :
  starts_with q t = true <-> exists post, t = q ++ post.
Proof.
  revert t. induction q as [|a q IH]; intros t; simpl.
  - split; [intros _; now exists t | reflexivity].
  - destruct t as [|b t].
    + split; [discriminate | intros [post H]; discriminate].
    + rewrite andb_true_iff, IH. split.
      * intros [Hab [post ->]]. apply Ascii.eqb_eq in Hab as ->. now exists post.
      * intros [post H]. injection H as -> ->. split; [apply Ascii.eqb_refl | now exists post].
Qed.

Lemma includes_spec (t q : string) :
  includes t q = true <-> exists pre post, t = pre ++ q ++ post.
Proof.
  induction t as [|c t IH].
  - cbn [includes]. rewrite orb_false_r, starts_with_spec. split.
    + intros [post H]. now exists EmptyString, post.
    + intros [pre [post H]]. destruct pre; [now exists post | discriminate].
  - cbn [includes]. rewrite orb_true_iff, starts_with_spec, IH. split.
    + intros [[post H] | [pre [post H]]].
      * now exists EmptyString, post.
      * exists (String c pre), post. simpl. now rewrite H.
    + intros [pre [post H]]. destruct pre as [|c' pre].
      * left. now exists post.
      * right. simpl in H. injection H as _ H. now exists pre, post.
Qed.

Lemma includes_empty (t : string) : includes t EmptyString = true.
Proof. destruct t; reflexivity. Qed.

Lemma toLowerCase_app (a b : string) :
  toLowerCase (a ++ b) = toLowerCase a ++ toLowerCase b.
Proof. induction a as [|c a IH]; simpl; [reflexivity | now rewrite IH]. Qed.

Lemma toLowerCase_split (t a b : string) :
  toLowerCase t = a ++ b ->
  exists t1 t2, t = t1 ++ t2 /\ toLowerCase t1 = a /\ toLowerCase t2 = b.
Proof.
  revert t. induction a as [|c a IH]; intros t H.
  - now exists EmptyString, t.
  - destruct t as [|d t]; [discriminate |].
    simpl in H. injection H as Hc H.
    destruct (IH _ H) as (t1 & t2 & -> & <- & <-).
    exists (String d t1), t2. simpl. now rewrite Hc.
Qed.

(** The test made by the component decides [ci_contains]. *)
Lemma includes_lower_iff (t q : string) :
  includes (toLowerCase t) (toLowerCase q) = true <-> ci_contains t q.
Proof.
  rewrite includes_spec. unfold ci_contains. split.
  - intros (pre & post & H).
    apply toLowerCase_split in H as (t1 & t2 & -> & <- & H).
    apply toLowerCase_split in H as (u & t3 & -> & Hu & <-).
    now exists t1, u, t3.
  - intros (pre & u & post & -> & Hu).
    exists (toLowerCase pre), (toLowerCase post).
    now rewrite !toLowerCase_app, Hu.
Qed.

Lemma join3 (a b c : string) : join " " [a; b; c] = a ++ " " ++ b ++ " " ++ c.
Proof. reflexivity. Qed.

Lemma matches_iff (q : string) (s : Student) :
  matches q s = true <-> ci_contains (joinedText s) q.
Proof. unfold matches, joinedText. rewrite join3. apply includes_lower_iff. Qed.

End StringFacts.

(** ** The JavaScript operators *)

Lemma strict_eq_true (a b : jsval) : strict_eq a b = true -> a = b.
Proof.
  destruct a, b; simpl; try discriminate; try reflexivity; intros H.
  - apply Z.eqb_eq in H. now subst.
  - apply String.eqb_eq in H. now subst.
  - apply String.eqb_eq in H. now subst.
Qed.

Lemma strict_eq_JStr (v : jsval) (L : string) :
  strict_eq v (JStr L) = true <-> v = JStr L.
Proof.
  split; [apply strict_eq_true | intros ->; simpl; apply String.eqb_refl].
Qed.

Lemma js_or_num_zero (f : Z) : ToNumber (js_or (JNum f) (JNum 0)) = JNum f.
Proof.
  unfold js_or. simpl. destruct (Z.eqb_spec f 0) as [-> | _]; reflexivity.
Qed.

(** ** Lists and record updates *)

Lemma lookup_map {A B : Type} (f : A -> B) (l : list A) (i : nat) :
  List.map f l !! i = f <$> l !! i.
Proof.
  revert i. induction l as [|x l IH]; intros [|i]; simpl; try reflexivity. apply IH.
Qed.

Lemma map_unchanged {A : Type} (f : A -> A) (l : list A) :
  (forall x, In x l -> f x = x) -> List.map f l = l.
Proof.
  induction l as [|x l IH]; simpl; intros H; [reflexivity |].
  rewrite H by now left. f_equal. apply IH. intros y Hy. apply H. now right.
Qed.

Lemma with_students_same (st : AppState) : with_students st (students st) = st.
Proof. now destruct st. Qed.

Lemma with_feesPaid_same (s : Student) : with_feesPaid s (feesPaid s) = s.
Proof. now destruct s. Qed.

Lemma with_feesPaid_twice (s : Student) (v w : jsval) :
  with_feesPaid (with_feesPaid s v) w = with_feesPaid s w.
Proof. reflexivity. Qed.

(** ** [handlePayFees] *)

Lemma payFees_lookup (sid : string) (amount : jsval) (st : AppState) (i : nat) :
  students (after (handlePayFees sid amount st)) !! i =
  (fun s => if String.eqb (id s) sid
            then with_feesPaid s
                   (num_add (ToNumber (js_or (feesPaid s) (JNum 0))) (ToNumber amount))
            else s) <$> students st !! i.
Proof. simpl. unfold payFeesUpdate. apply lookup_map. Qed.

Lemma payFees_numeric (sid : string) (amount : jsval) (st : AppState)
  (i : nat) (s : Student) (f a : Z) :
  students st !! i = Some s -> feesPaid s = JNum f -> ToNumber amount = JNum a ->
  students (after (handlePayFees sid amount st)) !! i =
  Some (with_feesPaid s (JNum (f + (if String.eqb (id s) sid then a else 0)))).
Proof.
  intros Hi Hf Ha. rewrite payFees_lookup, Hi. simpl.
  destruct (String.eqb (id s) sid).
  - now rewrite Hf, js_or_num_zero, Ha.
  - rewrite Z.add_0_r, <- Hf. now rewrite with_feesPaid_same.
Qed.

Lemma payFees_other (sid : string) (amount : jsval) (st : AppState)
  (i : nat) (s : Student) :
  students st !! i = Some s -> id s <> sid ->
  students (after (handlePayFees sid amount st)) !! i = Some s.
Proof.
  intros Hi Hne. rewrite payFees_lookup, Hi. simpl.
  now apply String.eqb_neq in Hne as ->.
Qed.

(** C1 (as amended).  [handlePayFees] validates nothing and never fails:
    whatever its sign, the integer [amount] is added to [feesPaid] of
    the records carrying the id, and a record with another id is left as
    it is.  Hence after any sequence of payments of integer amounts a
    record whose [feesPaid] was the integer [f] holds [f] plus the sum
    of all the amounts paid to its id, and is otherwise unchanged, as
    long as the amounts and the balances the record goes through stay
    within 2^53 in magnitude, where the additions of the program are
    exact. *)
Theorem payFees_sequence_sum (ps : list (string * jsval)) (st : AppState) :
  Forall (fun p => safeAmount (snd p)) ps ->
  (forall sid amount st', ~ failed (handlePayFees sid amount st')) /\
  (forall sid amount i s, students st !! i = Some s -> id s <> sid ->
     students (after (handlePayFees sid amount st)) !! i = Some s) /\
  (forall i s f, students st !! i = Some s -> feesPaid s = JNum f ->
     safeBalances (id s) f ps ->
     students (runPayments ps st) !! i =
     Some (with_feesPaid s (JNum (f + paidTo (id s) ps)))).
Proof.
  intros Hps. split; [|split].
  - intros sid amount st' H. now apply H.
  - intros sid amount i s. apply payFees_other.
  - revert st. induction Hps as [|[sid amount] ps [a [Ha _]] _ IH];
      intros st i s f Hi Hf Hsafe.
    + simpl. rewrite Z.add_0_r, <- Hf, with_feesPaid_same. exact Hi.
    + simpl in Ha. cbn [runPayments fold_left fst snd].
      pose proof (payFees_numeric sid amount st i s f a Hi Hf Ha) as H1.
      cbn [safeBalances] in Hsafe. destruct Hsafe as [_ Hrest].
      assert (amountOf amount = a) as Ea by (unfold amountOf; now rewrite Ha).
      rewrite Ea in Hrest.
      specialize (IH _ _ _ _ H1 eq_refl Hrest).
      unfold runPayments in IH. rewrite IH, with_feesPaid_twice.
      cbn [paidTo with_feesPaid id]. rewrite Ea.
      now rewrite Z.add_assoc.
Qed.

(** C3 (as amended).  For an id that no record carries, [handlePayFees]
    raises no error of any kind; it completes and the component state
    after the call is the state before it. *)
Theorem payFees_unknown_id (sid : string) (amount : jsval) (st : AppState) :
  (forall s, In s (students st) -> id s <> sid) ->
  ~ failed (handlePayFees sid amount st) /\
  after (handlePayFees sid amount st) = st.
Proof.
  intros Hno. split; [intros H; now apply H |].
  simpl. unfold payFeesUpdate. rewrite map_unchanged; [apply with_students_same |].
  intros s Hs. pose proof (Hno s Hs) as Hne.
  now apply String.eqb_neq in Hne as ->.
Qed.

(** ** [toggleHostel] *)

Lemma toggleHostel_students (sid : string) (L : string) (st : AppState) :
  students (after (toggleHostel sid (JStr L) st)) =
  List.map (toggled sid (JStr L)) (students st).
Proof. reflexivity. Qed.

Lemma toggled_matched (sid L : string) (s : Student) :
  id s = sid ->
  toggled sid (JStr L) s =
  with_hostel s (if decide (hostel s = JStr L) then JNull else JStr L).
Proof.
  intros <-. unfold toggled. rewrite String.eqb_refl.
  destruct (decide (hostel s = JStr L)) as [e | n].
  - now rewrite (proj2 (strict_eq_JStr _ _) e).
  - destruct (strict_eq (hostel s) (JStr L)) eqn:E; [|reflexivity].
    now apply strict_eq_JStr in E.
Qed.

Lemma toggled_other (sid : string) (h : jsval) (s : Student) :
  id s <> sid -> toggled sid h s = s.
Proof. intros Hne. unfold toggled. now apply String.eqb_neq in Hne as ->. Qed.

Lemma toggled_twice (sid L : string) (s : Student) :
  id s = sid ->
  toggled sid (JStr L) (toggled sid (JStr L) s) =
  with_hostel s (if decide (hostel s = JStr L) then JStr L else JNull).
Proof.
  intros Hid. rewrite (toggled_matched sid L s Hid).
  rewrite toggled_matched by (now destruct s).
  destruct (decide (hostel s = JStr L)) as [e | n]; simpl.
  - destruct (decide (JNull = JStr L)); [discriminate | reflexivity].
  - destruct (decide (JStr L = JStr L)); [reflexivity | contradiction].
Qed.

(** C4 (as amended).  [toggleHostel] raises no error: for an id that no
    record carries it completes and leaves the state as it was.  For a
    record carrying the id, the hostel becomes absent ([null]) when it
    equals the label and becomes the label in every other case, also
    when the record held a different hostel. *)
Theorem toggleHostel_spec (sid L : string) (st : AppState) :
  ~ failed (toggleHostel sid (JStr L) st) /\
  ((forall s, In s (students st) -> id s <> sid) ->
     after (toggleHostel sid (JStr L) st) = st) /\
  (forall i s, students st !! i = Some s -> id s = sid ->
     students (after (toggleHostel sid (JStr L) st)) !! i =
     Some (with_hostel s (if decide (hostel s = JStr L) then JNull else JStr L))).
Proof.
  split; [intros H; now apply H | split].
  - intros Hno. simpl. unfold toggleHostelUpdate.
    rewrite map_unchanged; [apply with_students_same |].
    intros s Hs. pose proof (Hno s Hs) as Hne.
    now apply String.eqb_neq in Hne as ->.
  - intros i s Hi Hid.
    rewrite toggleHostel_students, lookup_map, Hi. simpl.
    now rewrite toggled_matched.
Qed.

(** C10.  [toggleHostel] keeps the length and the order of the roster;
    at every position the record keeps its id, name, branch, year,
    feesPaid and admissionDate, and a record with another id is kept
    whole. *)
Theorem toggleHostel_frame (sid : string) (h : jsval) (st : AppState) :
  Forall2
    (fun s s' =>
       id s' = id s /\ name s' = name s /\ branch s' = branch s /\
       year s' = year s /\ feesPaid s' = feesPaid s /\
       admissionDate s' = admissionDate s /\
       (id s <> sid -> s' = s))
    (students st) (students (after (toggleHostel sid h st))).
Proof.
  simpl. unfold toggleHostelUpdate.
  induction (students st) as [|s l IH]; simpl; constructor; [|exact IH].
  destruct (String.eqb_spec (id s) sid) as [e | n]; simpl.
  - repeat split; try reflexivity. intros Hne. contradiction.
  - repeat split; reflexivity.
Qed.

(** ** [occupancyByHostel] *)

Lemma protoGet_not_inherited (k : string) :
  inheritedKey k = false -> protoGet k = JUndef /\ String.eqb k "__proto__" = false.
Proof.
  unfold inheritedKey, protoGet.
  destruct (String.eqb k "__proto__"); [discriminate |].
  destruct (String.eqb k "constructor"); [discriminate |].
  destruct (existsb _ _); [discriminate | now split].
Qed.

Lemma setProp_lookup_Some (o : gmap string jsval) (k k' : string) (v v' : jsval) :
  setProp o k v !! k' = Some v' -> k' = k \/ o !! k' = Some v'.
Proof.
  unfold setProp. destruct (String.eqb k "__proto__"); [now right |].
  destruct (decide (k = k')) as [-> | Hne]; [now left |].
  rewrite lookup_insert_ne by exact Hne. now right.
Qed.

(** Only labels held by a record become keys, whatever the labels are. *)
Lemma occupancy_fold_keys (l : list Student) (acc : gmap string jsval)
  (k : string) (v : jsval) :
  fold_left occupancyStep l acc !! k = Some v ->
  (exists s, In s l /\ label_of (hostel s) = Some k) \/ is_Some (acc !! k).
Proof.
  revert acc. induction l as [|s l IH]; intros acc H; simpl in H.
  - right. now exists v.
  - destruct (IH _ H) as [(s' & Hs' & Hl) | [v' Hv']].
    + left. exists s'. split; [now right | exact Hl].
    + unfold occupancyStep in Hv'. destruct (truthy (hostel s)) eqn:Ht.
      * apply setProp_lookup_Some in Hv' as [-> | Hv'].
        -- left. exists s. split; [now left |]. unfold label_of. now rewrite Ht.
        -- right. now exists v'.
      * right. now exists v'.
Qed.

Lemma occupancy_keys_held (l : list Student) (k : string) (v : jsval) :
  occupancyByHostel l !! k = Some v ->
  exists s, In s l /\ label_of (hostel s) = Some k.
Proof.
  intros H. apply occupancy_fold_keys in H as [H | [v' H]]; [exact H |].
  now rewrite lookup_empty in H.
Qed.

Lemma valuesSum_fold (o : gmap string jsval) :
  valuesSum o = map_fold (fun _ v acc => (countOf v + acc)%Z) 0%Z o.
Proof. reflexivity. Qed.

Lemma valuesSum_insert_new (o : gmap string jsval) (k : string) (v : jsval) :
  o !! k = None -> valuesSum (<[k := v]> o) = (countOf v + valuesSum o)%Z.
Proof.
  intros Hk. rewrite !valuesSum_fold.
  apply (map_fold_insert_L (fun (_ : string) v acc => (countOf v + acc)%Z));
    [intros; lia | exact Hk].
Qed.

Lemma valuesSum_insert_old (o : gmap string jsval) (k : string) (v v' : jsval) :
  o !! k = Some v ->
  valuesSum (<[k := v']> o) = (countOf v' - countOf v + valuesSum o)%Z.
Proof.
  intros Hk.
  rewrite <- (insert_delete_id o k v Hk) at 2.
  rewrite <- (insert_delete_eq o k v').
  rewrite !valuesSum_insert_new by apply lookup_delete_eq. lia.
Qed.

Lemma occupancyStep_safe (acc : gmap string jsval) (s : Student) :
  allCounts acc ->
  (truthy (hostel s) = true -> inheritedKey (ToString (hostel s)) = false) ->
  allCounts (occupancyStep acc s) /\
  valuesSum (occupancyStep acc s) =
  (valuesSum acc + (if truthy (hostel s) then 1 else 0))%Z.
Proof.
  intros Hacc Hsafe. unfold occupancyStep.
  destruct (truthy (hostel s)); [| split; [exact Hacc | lia]].
  destruct (protoGet_not_inherited _ (Hsafe eq_refl)) as [Hproto Hkey].
  set (k := ToString (hostel s)) in *.
  unfold setProp, getProp. rewrite Hkey.
  destruct (acc !! k) as [v|] eqn:Hk; simpl.
  - destruct (Hacc k v Hk) as (c & -> & Hc).
    assert (js_add (js_or (JNum c) (JNum 0)) (JNum 1) = JNum (c + 1)) as ->.
    { unfold js_or. simpl. destruct (Z.eqb_spec c 0); [lia | reflexivity]. }
    split.
    + intros k' v' H'. destruct (decide (k = k')) as [<- | Hne].
      * rewrite lookup_insert_eq in H'. injection H' as <-. exists (c + 1)%Z. split; [reflexivity | lia].
      * rewrite lookup_insert_ne in H' by exact Hne. now apply (Hacc k').
    + rewrite (valuesSum_insert_old acc k (JNum c)) by exact Hk. simpl. lia.
  - rewrite Hproto. split.
    + intros k' v' H'. destruct (decide (k = k')) as [<- | Hne].
      * rewrite lookup_insert_eq in H'. injection H' as <-. exists 1%Z. split; [reflexivity | lia].
      * rewrite lookup_insert_ne in H' by exact Hne. now apply (Hacc k').
    + rewrite valuesSum_insert_new by exact Hk. simpl. lia.
Qed.

Lemma occupancy_fold_safe (l : list Student) (acc : gmap string jsval) :
  allCounts acc -> safeLabels l ->
  allCounts (fold_left occupancyStep l acc) /\
  valuesSum (fold_left occupancyStep l acc) =
  (valuesSum acc + Z.of_nat (hostelOccupancy l))%Z.
Proof.
  revert acc. induction l as [|s l IH]; intros acc Hacc Hsafe.
  - simpl. split; [exact Hacc | unfold hostelOccupancy; simpl; lia].
  - destruct (occupancyStep_safe acc s Hacc) as [H1 H2].
    { intros Ht. apply Hsafe; [now left | exact Ht]. }
    destruct (IH (occupancyStep acc s) H1) as [H3 H4].
    { intros s' Hs'. apply Hsafe. now right. }
    simpl. split; [exact H3 |]. rewrite H4, H2.
    unfold hostelOccupancy. simpl. destruct (truthy (hostel s)); simpl length; lia.
Qed.

(** When no label in use collides with a member of [Object.prototype],
    the values of [occupancyByHostel] are positive counts that sum to
    [hostelOccupancy], and a key is present only for a label held by a
    record. *)
Lemma occupancy_sum_safe (l : list Student) :
  safeLabels l ->
  valuesSum (occupancyByHostel l) = Z.of_nat (hostelOccupancy l) /\
  allCounts (occupancyByHostel l) /\
  (forall k v, occupancyByHostel l !! k = Some v ->
     exists s, In s l /\ label_of (hostel s) = Some k).
Proof.
  intros Hsafe.
  destruct (occupancy_fold_safe l ∅) as [H1 H2]; [| exact Hsafe |].
  { intros k v H. now rewrite lookup_empty in H. }
  split; [| split; [exact H1 | apply occupancy_keys_held]].
  unfold occupancyByHostel. rewrite H2. reflexivity.
Qed.

(** C9 (evaluation at labels that a plain object inherits).  A student
    admitted with the text ["__proto__"] in the hostel input counts in
    [hostelOccupancy], which is 1, while [occupancyByHostel] stays empty,
    so its values sum to 0; for the label ["constructor"] the value
    stored under the key is a string, not the count 1. *)
Theorem occupancy_inherited_label :
  let admitted k :=
    students (run [Edit (EditName "Zara Khan"); Edit (EditBranch "Civil");
                   Edit (EditHostel k); Admission "Z1" "2025-01-10"]
                  (emptyStore Form.blank)) in
  admitted "__proto__" =
    [mkStudent "Z1" "Zara Khan" "Civil" (JNum 1) (JStr "__proto__") (JNum 0) "2025-01-10"] /\
  hostelOccupancy (admitted "__proto__") = 1 /\
  occupancyByHostel (admitted "__proto__") = ∅ /\
  valuesSum (occupancyByHostel (admitted "__proto__")) = 0%Z /\
  hostelOccupancy (admitted "constructor") = 1 /\
  occupancyByHostel (admitted "constructor") =
    {[ "constructor" := JStr (funText "Object" ++ "1") ]} /\
  valuesSum (occupancyByHostel (admitted "constructor")) = 0%Z.
Proof. repeat split; vm_compute; reflexivity. Qed.

(** ** Two toggles in a row *)

Lemma toggleHostel_twice_students (sid L : string) (st : AppState) :
  students (after (toggleHostel sid (JStr L) (after (toggleHostel sid (JStr L) st)))) =
  List.map (fun s => toggled sid (JStr L) (toggled sid (JStr L) s)) (students st).
Proof. rewrite !toggleHostel_students. apply List.map_map. Qed.

Lemma toggled_twice_label (sid L : string) (s : Student) :
  label_of (hostel s) <> Some L ->
  label_of (hostel (toggled sid (JStr L) (toggled sid (JStr L) s))) <> Some L.
Proof.
  intros Hs. destruct (String.eqb_spec (id s) sid) as [e | n].
  - rewrite toggled_twice by exact e.
    destruct (decide (hostel s = JStr L)) as [e' | n']; simpl.
    + now rewrite <- e'.
    + discriminate.
  - now rewrite !(toggled_other sid (JStr L) s n).
Qed.

(** C2 (as amended).  Two consecutive [toggleHostel] calls with the same
    label [L] bring a record that held [L] back to [L] and leave every
    other matched record without a hostel: a record that had none ends
    with none, and a record that held a different label loses it.  When
    no record held [L] before the two calls, [occupancyByHostel] has no
    key [L] after them. *)
Theorem toggleHostel_twice (sid L : string) (st : AppState) :
  let st2 := after (toggleHostel sid (JStr L) (after (toggleHostel sid (JStr L) st))) in
  (forall i s, students st !! i = Some s -> id s = sid ->
     students st2 !! i =
     Some (with_hostel s (if decide (hostel s = JStr L) then JStr L else JNull))) /\
  (forall i s, students st !! i = Some s -> id s = sid ->
     label_of (hostel s) = None ->
     exists s', students st2 !! i = Some s' /\ label_of (hostel s') = None) /\
  ((forall s, In s (students st) -> label_of (hostel s) <> Some L) ->
     occupancyByHostel (students st2) !! L = None).
Proof.
  intros st2.
  assert (forall i s, students st !! i = Some s -> id s = sid ->
     students st2 !! i =
     Some (with_hostel s (if decide (hostel s = JStr L) then JStr L else JNull))) as H1.
  { intros i s Hi Hid. unfold st2.
    rewrite toggleHostel_twice_students, lookup_map, Hi. simpl.
    now rewrite toggled_twice. }
  split; [exact H1 | split].
  - intros i s Hi Hid Habs. eexists. split; [exact (H1 i s Hi Hid) |].
    destruct (decide (hostel s = JStr L)) as [e | n]; simpl; [now rewrite <- e | reflexivity].
  - intros Hfree.
    destruct (occupancyByHostel (students st2) !! L) as [v|] eqn:Hv; [| reflexivity].
    exfalso. apply occupancy_keys_held in Hv as (s2 & Hin & Hlab).
    unfold st2 in Hin. rewrite toggleHostel_twice_students in Hin.
    apply in_map_iff in Hin as (s & <- & Hs).
    now apply (toggled_twice_label sid L s (Hfree s Hs)).
Qed.

(** ** Monotonicity of [feesPaid] *)

Lemma handleAdmit_students (newId now : string) (st : AppState) :
  students (after (handleAdmit newId now st)) = students st \/
  exists s, id s = newId /\ admissionDate s = now /\
            students (after (handleAdmit newId now st)) = s :: students st.
Proof.
  unfold handleAdmit. destruct (_ || _); [now left |].
  right. eexists (mkStudent newId _ _ _ _ _ now).
  split; [reflexivity | split; reflexivity].
Qed.


(** ** [handleAdmit] *)

Lemma truthy_JStr (s : string) : truthy (JStr s) = false <-> s = "".
Proof.
  simpl. destruct (String.eqb_spec s ""); simpl; split; congruence.
Qed.

Lemma handleAdmit_failed_iff (newId now : string) (st : AppState) :
  failed (handleAdmit newId now st) <->
  Form.name (form st) = "" \/ Form.branch (form st) = "".
Proof.
  unfold failed, handleAdmit. rewrite <- !truthy_JStr.
  destruct (truthy (JStr (Form.name (form st))));
    destruct (truthy (JStr (Form.branch (form st)))); simpl;
    split; try congruence; try tauto; intros [H | H]; discriminate.
Qed.

Lemma applyEdit_feesPaid (e : FormEdit) (f : Form.t) :
  Form.feesPaid f = JNum 0 -> Form.feesPaid (applyEdit e f) = JNum 0.
Proof. now destruct e. Qed.

Lemma dispatch_form_feesPaid (ev : Event) (st : AppState) :
  Form.feesPaid (form st) = JNum 0 ->
  Form.feesPaid (form (after (dispatch ev st))) = JNum 0.
Proof.
  intros H. destruct ev as [newId now | sid amount | sid h | e]; simpl; try exact H.
  - unfold handleAdmit. destruct (_ || _); [exact H | reflexivity].
  - now apply applyEdit_feesPaid.
Qed.

Lemma run_form_feesPaid (evs : list Event) (st : AppState) :
  Form.feesPaid (form st) = JNum 0 ->
  Form.feesPaid (form (run evs st)) = JNum 0.
Proof.
  revert st. induction evs as [|ev evs IH]; intros st H; simpl; [exact H |].
  apply IH. now apply dispatch_form_feesPaid.
Qed.

(** C6.  [handleAdmit] fails, with the alert "Name and branch required",
    exactly when the name or the branch of the form is empty, and then
    the state is unchanged.  Otherwise the new record, built from the
    form, the drawn id and the current date, is put in front of the
    roster.  The form offers no input for [feesPaid]: in every state the
    component reaches its value is 0, which is what an admitted record
    receives.  Admitting Zara Khan (Civil, year 2) on an empty roster
    with id "Z1" on "2025-01-10" gives the stated record, whose hostel
    is the empty string of the untouched input, that is, no hostel. *)
Theorem handleAdmit_spec (newId now : string) (st : AppState) :
  let o := handleAdmit newId now st in
  let f := form st in
  (failed o <-> Form.name f = "" \/ Form.branch f = "") /\
  (failed o -> alerted o = Some "Name and branch required" /\ after o = st) /\
  (~ failed o ->
     students (after o) =
     mkStudent newId (Form.name f) (Form.branch f) (Form.year f)
               (JStr (Form.hostel f)) (Form.feesPaid f) now :: students st) /\
  (forall evs id1 id2 id3,
     Form.feesPaid (form (run evs (initialState id1 id2 id3))) = JNum 0) /\
  students (after (handleAdmit "Z1" "2025-01-10" (emptyStore zaraForm))) =
    [mkStudent "Z1" "Zara Khan" "Civil" (JNum 2) (JStr "") (JNum 0) "2025-01-10"] /\
  label_of (JStr "") = None.
Proof.
  intros o f. split; [apply handleAdmit_failed_iff |].
  split; [| split; [| split; [| split]]].
  - unfold o, failed, handleAdmit. destruct (_ || _); simpl; intros H.
    + now split.
    + now contradiction H.
  - unfold o, failed, handleAdmit. destruct (_ || _); simpl; intros H.
    + exfalso. apply H. discriminate.
    + reflexivity.
  - intros evs id1 id2 id3. now apply run_form_feesPaid.
  - reflexivity.
  - reflexivity.
Qed.

(** ** Distinct ids *)

Lemma ids_after_dispatch (ev : Event) (st : AppState) :
  ids (after (dispatch ev st)) = ids st \/
  exists newId now, ev = Admission newId now /\
                    ids (after (dispatch ev st)) = newId :: ids st.
Proof.
  unfold ids. destruct ev as [newId now | sid amount | sid h | e]; simpl.
  - destruct (handleAdmit_students newId now st) as [-> | (s & <- & _ & ->)];
      [now left | right]. now exists (id s), now.
  - left. unfold payFeesUpdate. rewrite List.map_map. apply List.map_ext.
    intros s. now destruct (String.eqb (id s) sid).
  - left. unfold toggleHostelUpdate. rewrite List.map_map. apply List.map_ext.
    intros s. now destruct (String.eqb (id s) sid).
  - now left.
Qed.

(** C7 (as amended).  [handleAdmit] takes the id that the generator
    draws and checks nothing.  When the ids of the roster are pairwise
    distinct and every admission of a run draws an id that no record
    carries at that moment, the ids are pairwise distinct after the
    run; payments, toggles and form edits never change an id. *)
Theorem ids_stay_distinct (evs : list Event) (st : AppState) :
  List.NoDup (ids st) -> freshDraws evs st -> List.NoDup (ids (run evs st)).
Proof.
  revert st. induction evs as [|ev evs IH]; intros st Hnd Hfresh; [exact Hnd |].
  destruct Hfresh as [Hev Hrest]. simpl. apply IH; [| exact Hrest].
  destruct (ids_after_dispatch ev st) as [-> | (newId & now & -> & ->)];
    [exact Hnd |].
  now constructor.
Qed.

(** ** [filtered] *)

Lemma filter_all {A : Type} (p : A -> bool) (l : list A) :
  (forall x, p x = true) -> List.filter p l = l.
Proof.
  intros H. induction l as [|x l IH]; simpl; [reflexivity |].
  now rewrite H, IH.
Qed.

(** C8 (as amended).  For a roster and a query of ASCII text,
    [filtered] keeps, in roster order, exactly the records for which the
    text made of name, branch and id separated by single spaces contains
    the query as a substring, letter case ignored; with the empty query
    it is the whole roster. *)
Theorem filtered_spec (st : AppState) (p : Student -> bool) :
  (forall s, In s (students st) -> isAscii (joinedText s) = true) ->
  isAscii (query st) = true ->
  (forall s, p s = true <-> ci_contains (joinedText s) (query st)) ->
  filtered st = List.filter p (students st) /\
  (query st = "" -> filtered st = students st).
Proof.
  intros _ _ Hp. unfold filtered. split.
  - apply List.filter_ext. intros s.
    pose proof (matches_iff (query st) s) as Hm. specialize (Hp s).
    destruct (matches (query st) s), (p s); try reflexivity.
    + symmetry. apply Hp, Hm. reflexivity.
    + apply Hm, Hp. reflexivity.
  - intros ->. apply filter_all. intros s. unfold matches. apply includes_empty.
Qed.

(** * Concrete runs *)

(** C1, the claim as stated fails: the amount -100 is not positive, yet
    [handlePayFees] raises nothing and takes 100 off the record, also
    when it is entered in the amount input of the Pay button. *)
Lemma payFees_accepts_negative_amount :
  let st := storeOf [zara JNull (JNum 500)] in
  ~ positiveAmount (JNum (-100)) /\
  ~ failed (handlePayFees "Z1" (JNum (-100)) st) /\
  students (after (handlePayFees "Z1" (JNum (-100)) st)) = [zara JNull (JNum 400)] /\
  students (after (payButtonClick (zara JNull (JNum 500)) "-100" st)) =
    [zara JNull (JNum 400)].
Proof.
  cbv zeta. split; [| split; [| split]].
  - intros (a & Ha & Hpos). simpl in Ha. injection Ha as <-. lia.
  - intros H. now apply H.
  - reflexivity.
  - reflexivity.
Qed.

(** The payments 5000 and 2500 to "Z1" leave 7500 on the record. *)
Lemma payFees_sequence_sum_witness :
  let ps := [("Z1", JNum 5000); ("Z1", JStr "2500")] in
  let st := storeOf [zara JNull (JNum 0)] in
  Forall (fun p => safeAmount (snd p)) ps /\
  safeBalances "Z1" 0 ps /\
  students (runPayments ps st) !! 0 = Some (zara JNull (JNum 7500)).
Proof.
  cbv zeta.
  assert (Forall (fun p : string * jsval => safeAmount (snd p))
            [("Z1", JNum 5000); ("Z1", JStr "2500")]) as Hps.
  { apply List.Forall_cons; [| apply List.Forall_cons; [| apply List.Forall_nil]].
    - exists 5000%Z. split; [reflexivity | unfold safeInteger, maxSafe; lia].
    - exists 2500%Z. split; [reflexivity | unfold safeInteger, maxSafe; lia]. }
  assert (safeBalances "Z1" 0 [("Z1", JNum 5000); ("Z1", JStr "2500")]) as Hsafe.
  { cbn [safeBalances]. repeat split; vm_compute; discriminate. }
  split; [exact Hps | split; [exact Hsafe |]].
  exact (proj2 (proj2 (payFees_sequence_sum _ (storeOf [zara JNull (JNum 0)]) Hps))
           0 (zara JNull (JNum 0)) 0%Z eq_refl eq_refl Hsafe).
Defined.

(** C2, the claim as stated fails: a record that holds hostel "B" and is
    toggled twice with the label "A" ends without a hostel. *)
Lemma toggleHostel_twice_loses_other_label :
  let st := storeOf [zara (JStr "B") (JNum 0)] in
  students (after (toggleHostel "Z1" (JStr "A") (after (toggleHostel "Z1" (JStr "A") st)))) =
    [zara JNull (JNum 0)] /\
  label_of (hostel (zara JNull (JNum 0))) <> label_of (hostel (zara (JStr "B") (JNum 0))).
Proof. cbv zeta. split; [reflexivity | discriminate]. Qed.

(** Two toggles with "A" on a record without hostel: no hostel, no key "A". *)
Lemma toggleHostel_twice_witness :
  let st := storeOf [zara JNull (JNum 0)] in
  let st2 := after (toggleHostel "Z1" (JStr "A") (after (toggleHostel "Z1" (JStr "A") st))) in
  students st2 !! 0 = Some (zara JNull (JNum 0)) /\
  occupancyByHostel (students st2) !! "A" = None.
Proof.
  cbv zeta. split.
  - exact (proj1 (toggleHostel_twice "Z1" "A" (storeOf [zara JNull (JNum 0)]))
             0 (zara JNull (JNum 0)) eq_refl eq_refl).
  - apply (proj2 (proj2 (toggleHostel_twice "Z1" "A" (storeOf [zara JNull (JNum 0)])))).
    intros s [<- | []]. discriminate.
Defined.

(** C3, the claim as stated fails: no seeded record carries the id
    "UNKNOWN", and the payment raises nothing. *)
Lemma payFees_unknown_id_raises_nothing :
  let st := initialState "A1" "B2" "C3" in
  (forall s, In s (students st) -> id s <> "UNKNOWN") /\
  ~ failed (handlePayFees "UNKNOWN" (JNum 100) st).
Proof.
  cbv zeta. split.
  - intros s [<- | [<- | [<- | []]]]; discriminate.
  - intros H. now apply H.
Qed.

(** A payment to "UNKNOWN" leaves the seeded state as it is. *)
Lemma payFees_unknown_id_witness :
  let st := initialState "A1" "B2" "C3" in
  (forall s, In s (students st) -> id s <> "UNKNOWN") /\
  after (handlePayFees "UNKNOWN" (JNum 100) st) = st.
Proof.
  cbv zeta.
  assert (forall s, In s (students (initialState "A1" "B2" "C3")) -> id s <> "UNKNOWN") as Hno.
  { intros s [<- | [<- | [<- | []]]]; discriminate. }
  split; [exact Hno |].
  exact (proj2 (payFees_unknown_id "UNKNOWN" (JNum 100) _ Hno)).
Defined.

(** C4, the claim as stated fails: toggling the hostel of the unknown id
    "UNKNOWN" raises nothing. *)
Lemma toggleHostel_unknown_id_raises_nothing :
  let st := initialState "A1" "B2" "C3" in
  (forall s, In s (students st) -> id s <> "UNKNOWN") /\
  ~ failed (toggleHostel "UNKNOWN" (JStr "A") st).
Proof.
  cbv zeta. split.
  - intros s [<- | [<- | [<- | []]]]; discriminate.
  - intros H. now apply H.
Qed.

(** On the seeded roster: "UNKNOWN" changes nothing, Rohit moves from B to A. *)
Lemma toggleHostel_spec_witness :
  let st := initialState "A1" "B2" "C3" in
  after (toggleHostel "UNKNOWN" (JStr "A") st) = st /\
  students (after (toggleHostel "B2" (JStr "A") st)) !! 1 =
    Some (mkStudent "B2" "Rohit Sharma" "Electronics" (JNum 2) (JStr "A") (JNum 20000)
                    "2024-08-21").
Proof.
  cbv zeta. split.
  - apply (proj1 (proj2 (toggleHostel_spec "UNKNOWN" "A" (initialState "A1" "B2" "C3")))).
    intros s [<- | [<- | [<- | []]]]; discriminate.
  - exact (proj2 (proj2 (toggleHostel_spec "B2" "A" (initialState "A1" "B2" "C3")))
             1 _ eq_refl eq_refl).
Defined.



(** The admission of Zara Khan succeeds and gives the one record. *)
Lemma handleAdmit_spec_witness :
  ~ failed (handleAdmit "Z1" "2025-01-10" (emptyStore zaraForm)) /\
  students (after (handleAdmit "Z1" "2025-01-10" (emptyStore zaraForm))) =
    [zara (JStr "") (JNum 0)].
Proof.
  assert (~ failed (handleAdmit "Z1" "2025-01-10" (emptyStore zaraForm))) as Hok.
  { intros H. now apply H. }
  split; [exact Hok |].
  exact (proj1 (proj2 (proj2 (handleAdmit_spec "Z1" "2025-01-10" (emptyStore zaraForm)))) Hok).
Defined.

(** C7, the claim as stated fails: when the generator draws "Z1" twice,
    two admissions give two records with the id "Z1". *)
Lemma admit_repeats_an_id :
  let fill := [Edit (EditName "Zara Khan"); Edit (EditBranch "Civil")] in
  let evs := (fill ++ [Admission "Z1" "2025-01-10"] ++ fill ++ [Admission "Z1" "2025-01-11"])%list in
  ids (run evs (emptyStore Form.blank)) = ["Z1"; "Z1"] /\
  ~ List.NoDup (ids (run evs (emptyStore Form.blank))).
Proof.
  cbv zeta. split; [reflexivity |].
  intros H. vm_compute in H. inversion H as [| x l Hin _]. apply Hin. now left.
Qed.

(** Two admissions drawing "Z1" and "Z2" keep the ids distinct. *)
Lemma ids_stay_distinct_witness :
  let fill := [Edit (EditName "Zara Khan"); Edit (EditBranch "Civil")] in
  let evs := (fill ++ [Admission "Z1" "2025-01-10"] ++ fill ++ [Admission "Z2" "2025-01-11"])%list in
  freshDraws evs (emptyStore Form.blank) /\
  List.NoDup (ids (run evs (emptyStore Form.blank))).
Proof.
  cbv zeta.
  assert (freshDraws
            [Edit (EditName "Zara Khan"); Edit (EditBranch "Civil"); Admission "Z1" "2025-01-10";
             Edit (EditName "Zara Khan"); Edit (EditBranch "Civil"); Admission "Z2" "2025-01-11"]
            (emptyStore Form.blank)) as Hfresh.
  { simpl. repeat split; try exact I; [intros [] | intros [H | []]; discriminate]. }
  split; [exact Hfresh |].
  exact (ids_stay_distinct _ (emptyStore Form.blank) (List.NoDup_nil _) Hfresh).
Defined.

(** C8, the claim as stated fails: the query "n c" finds Ann of Civil
    through the separating space, while the concatenation of name,
    branch and id, "AnnCivilX1", does not contain it. *)
Lemma filtered_matches_across_separator :
  let ann := mkStudent "X1" "Ann" "Civil" (JNum 1) JNull (JNum 0) "2025-01-10" in
  let st := mkApp "Admin" [ann] "n c" "students" Form.blank JNull in
  filtered st = [ann] /\ ~ ci_contains (concatenatedText ann) (query st).
Proof.
  cbv zeta. split; [reflexivity |].
  intros H. apply includes_lower_iff in H. vm_compute in H. discriminate.
Qed.

(** The test of the component is one such [p]. *)
Lemma filtered_spec_witness :
  let ann := mkStudent "X1" "Ann" "Civil" (JNum 1) JNull (JNum 0) "2025-01-10" in
  let st := mkApp "Admin" [ann] "n c" "students" Form.blank JNull in
  (forall s, In s (students st) -> isAscii (joinedText s) = true) /\
  isAscii (query st) = true /\
  (forall s, matches "n c" s = true <-> ci_contains (joinedText s) (query st)) /\
  filtered st = List.filter (matches "n c") (students st).
Proof.
  cbv zeta.
  set (st := mkApp "Admin"
               [mkStudent "X1" "Ann" "Civil" (JNum 1) JNull (JNum 0) "2025-01-10"]
               "n c" "students" Form.blank JNull).
  assert (forall s, In s (students st) -> isAscii (joinedText s) = true) as Hr.
  { intros s [<- | []]. reflexivity. }
  assert (isAscii (query st) = true) as Hq by reflexivity.
  split; [exact Hr | split; [exact Hq | split; [intros s; apply matches_iff |]]].
  exact (proj1 (filtered_spec st (matches "n c") Hr Hq (fun s => matches_iff "n c" s))).
Defined.

(** * Further properties of the component *)

Lemma safeInteger_small (n : Z) : (-1000000 <= n <= 1000000)%Z -> safeInteger n.
Proof. unfold safeInteger, maxSafe. lia. Qed.

Ltac safe_int := apply safeInteger_small; vm_compute; split; discriminate.

Ltac safe_bal :=
  first [ now left | right; eexists; split; [reflexivity | safe_int] ].

Ltac safe_totals :=
  repeat match goal with
         | |- _ /\ _ => split
         | |- safeInteger _ => safe_int
         | |- safeBalance _ => safe_bal
         | |- True => exact I
         end.

(** ** [totalFees] *)

Lemma num_add_isNumber (a b : jsval) : isNumber (num_add a b) = true.
Proof. destruct a, b; reflexivity. Qed.

Lemma feeTerm_number (v : jsval) :
  isNumber v = true -> ToNumber (js_or v (JNum 0)) = JNum (countOf v).
Proof.
  destruct v; try discriminate; intros _; [apply js_or_num_zero | reflexivity].
Qed.

Lemma totalFees_fold (l : list Student) (z : Z) :
  (forall s, In s l -> isNumber (feesPaid s) = true) ->
  fold_left (fun s x => num_add s (ToNumber (js_or (feesPaid x) (JNum 0)))) l (JNum z)
  = JNum (z + sumBalances l).
Proof.
  revert z. induction l as [|x l IH]; intros z H; simpl.
  - now rewrite Z.add_0_r.
  - rewrite feeTerm_number by (apply H; now left). simpl.
    rewrite IH by (intros s Hs; apply H; now right).
    unfold balanceOf. now rewrite Z.add_assoc.
Qed.

Lemma totalFees_numbers (l : list Student) :
  (forall s, In s l -> isNumber (feesPaid s) = true) ->
  totalFees l = JNum (sumBalances l).
Proof. intros H. unfold totalFees. now rewrite totalFees_fold. Qed.

Lemma safeTotals_numbers (l : list Student) (acc : Z) :
  safeTotals acc l -> forall s, In s l -> isNumber (feesPaid s) = true.
Proof.
  revert acc. induction l as [|x l IH]; intros acc [_ H] s Hs; [contradiction |].
  destruct H as [Hb Hr]. destruct Hs as [<- | Hs].
  - destruct Hb as [-> | (f & -> & _)]; reflexivity.
  - exact (IH _ Hr s Hs).
Qed.

(** X1.  When every [feesPaid] is [NaN] or an integer, and the balances
    and the running totals stay within 2^53 in magnitude, [totalFees]
    is the sum of the integer balances; a balance that is [NaN] counts
    as 0 and does not spoil the total. *)
Theorem totalFees_is_sum (l : list Student) :
  safeTotals 0 l ->
  totalFees l = JNum (sumBalances l).
Proof.
  intros H. unfold totalFees.
  rewrite (totalFees_fold l 0 (safeTotals_numbers l 0 H)). now rewrite Z.add_0_l.
Qed.

Lemma totalFees_is_sum_witness :
  let l := [zara JNull (JNum 5000); zara JNull JNaN; zara JNull (JNum 2500)] in
  safeTotals 0 l /\ totalFees l = JNum 7500.
Proof.
  cbv zeta.
  assert (safeTotals 0 [zara JNull (JNum 5000); zara JNull JNaN; zara JNull (JNum 2500)]) as H.
  { cbn [safeTotals]. safe_totals. }
  split; [exact H | exact (totalFees_is_sum _ H)].
Defined.

Lemma payFeesUpdate_numbers (sid : string) (amount : jsval) (l : list Student) :
  (forall s, In s l -> isNumber (feesPaid s) = true) ->
  forall s, In s (payFeesUpdate sid amount l) -> isNumber (feesPaid s) = true.
Proof.
  intros H s Hs. unfold payFeesUpdate in Hs. apply in_map_iff in Hs as (s0 & <- & Hs0).
  destruct (String.eqb (id s0) sid); [apply num_add_isNumber | now apply H].
Qed.

Lemma sumBalances_cons (x : Student) (l : list Student) :
  sumBalances (x :: l) = (balanceOf x + sumBalances l)%Z.
Proof. reflexivity. Qed.

Lemma countId_cons (sid : string) (x : Student) (l : list Student) :
  countId sid (x :: l) =
  ((if String.eqb (id x) sid then 1 else 0) + countId sid l)%nat.
Proof. unfold countId. simpl. now destruct (String.eqb (id x) sid). Qed.

Lemma sumBalances_payFees (sid : string) (amount : jsval) (a : Z) (l : list Student) :
  (forall s, In s l -> isNumber (feesPaid s) = true) ->
  ToNumber amount = JNum a ->
  sumBalances (payFeesUpdate sid amount l) =
  (sumBalances l + a * Z.of_nat (countId sid l))%Z.
Proof.
  intros H Ha. induction l as [|x l IH].
  - unfold countId. simpl. lia.
  - change (payFeesUpdate sid amount (x :: l))
      with ((if String.eqb (id x) sid
             then with_feesPaid x
                    (num_add (ToNumber (js_or (feesPaid x) (JNum 0))) (ToNumber amount))
             else x) :: payFeesUpdate sid amount l).
    rewrite !sumBalances_cons, countId_cons, IH by (intros s Hs; apply H; now right).
    destruct (String.eqb (id x) sid); [| lia].
    unfold balanceOf at 1. cbn [feesPaid with_feesPaid].
    rewrite feeTerm_number, Ha by (apply H; now left).
    unfold balanceOf. cbn [num_add countOf]. lia.
Qed.

(** X3.  A payment of an integer amount [a] raises [totalFees] by [a]
    for each record that carries the id: by nothing for an unknown id,
    by [a] once when the id is unique.  The amount, the balances and the
    running totals, before and after the payment, are within 2^53 in
    magnitude. *)
Theorem totalFees_after_payment (sid : string) (amount : jsval) (a : Z) (st : AppState) :
  safeTotals 0 (students st) ->
  ToNumber amount = JNum a -> safeInteger a ->
  safeTotals 0 (students (after (handlePayFees sid amount st))) ->
  totalFees (students (after (handlePayFees sid amount st))) =
  JNum (sumBalances (students st) + a * Z.of_nat (countId sid (students st))).
Proof.
  intros H Ha _ _. pose proof (safeTotals_numbers _ _ H) as Hn.
  simpl. rewrite totalFees_numbers by now apply payFeesUpdate_numbers.
  now rewrite (sumBalances_payFees sid amount a).
Qed.

Lemma totalFees_after_payment_witness :
  let st := initialState "A1" "B2" "C3" in
  safeTotals 0 (students st) /\
  ToNumber (JStr "500") = JNum 500 /\ safeInteger 500 /\
  safeTotals 0 (students (after (handlePayFees "B2" (JStr "500") st))) /\
  totalFees (students (after (handlePayFees "B2" (JStr "500") st))) = JNum 35500.
Proof.
  cbv zeta.
  assert (safeTotals 0 (students (initialState "A1" "B2" "C3"))) as H.
  { cbn [safeTotals students initialState initialStudents]. safe_totals. }
  assert (safeInteger 500) as H5 by safe_int.
  assert (safeTotals 0 (students (after (handlePayFees "B2" (JStr "500")
                                            (initialState "A1" "B2" "C3"))))) as H'.
  { change (students (after (handlePayFees "B2" (JStr "500") (initialState "A1" "B2" "C3"))))
      with [mkStudent "A1" "Aisha Verma" "Computer Engg" (JNum 1) (JStr "A") (JNum 15000)
                      "2025-06-15";
            mkStudent "B2" "Rohit Sharma" "Electronics" (JNum 2) (JStr "B") (JNum 20500)
                      "2024-08-21";
            mkStudent "C3" "Maya Nair" "Mechanical" (JNum 3) JNull (JNum 0) "2023-07-01"].
    cbn [safeTotals]. safe_totals. }
  split; [exact H | split; [reflexivity | split; [exact H5 | split; [exact H' |]]]].
  exact (totalFees_after_payment "B2" (JStr "500") 500 _ H eq_refl H5 H').
Defined.

Lemma trim_right_keeps_head (c : ascii) (r : string) :
  is_space c = false -> exists r', trim_right (String c r) = String c r'.
Proof.
  intros Hc. cbn [trim_right]. destruct (trim_right r) as [|c' r'].
  - rewrite Hc. now exists EmptyString.
  - now exists (String c' r').
Qed.

Lemma notNumericText_NaN (s : string) :
  notNumericText s = true -> StringToNumber s = JNaN.
Proof.
  unfold notNumericText, StringToNumber.
  destruct (trim_left s) as [|c r]; [discriminate |]. intros H.
  apply andb_true_iff in H as [Hl HI].
  assert (is_space c = false) as Hs.
  { destruct c as [[] [] [] [] [] [] [] []]; try discriminate Hl; reflexivity. }
  destruct (trim_right_keeps_head c r Hs) as [r' ->].
  destruct c as [[] [] [] [] [] [] [] []]; try discriminate Hl; reflexivity.
Qed.

Lemma notNumeric_NaN (v : jsval) : notNumeric v -> ToNumber v = JNaN.
Proof.
  intros [-> | [-> | (s & -> & H)]]; [reflexivity | reflexivity |].
  now apply notNumericText_NaN.
Qed.

(** X4.  A payment of an amount that is not a number ([undefined],
    [NaN], or text that starts with a letter other than [I]) turns the
    balance of the record into [NaN]; the next payment of an integer
    [a] within 2^53 then leaves exactly [a], because [NaN || 0] is 0:
    the earlier balance is lost. *)
Theorem payFees_after_nan (sid : string) (bad amount : jsval) (a : Z)
  (st : AppState) (i : nat) (s : Student) :
  students st !! i = Some s -> id s = sid ->
  notNumeric bad -> ToNumber amount = JNum a -> safeInteger a ->
  students (after (handlePayFees sid bad st)) !! i = Some (with_feesPaid s JNaN) /\
  students (after (handlePayFees sid amount (after (handlePayFees sid bad st)))) !! i =
  Some (with_feesPaid s (JNum a)).
Proof.
  intros Hi <- Hbad Ha _. apply notNumeric_NaN in Hbad.
  assert (students (after (handlePayFees (id s) bad st)) !! i = Some (with_feesPaid s JNaN)) as H1.
  { rewrite payFees_lookup, Hi. simpl. rewrite String.eqb_refl, Hbad.
    now destruct (ToNumber (js_or (feesPaid s) (JNum 0))). }
  split; [exact H1 |].
  rewrite payFees_lookup, H1. simpl. now rewrite String.eqb_refl, Ha.
Qed.

Lemma payFees_after_nan_witness :
  let st := initialState "A1" "B2" "C3" in
  notNumeric (JStr "abc") /\ safeInteger 100 /\
  students (after (handlePayFees "A1" (JNum 100) (after (handlePayFees "A1" (JStr "abc") st)))) !! 0 =
  Some (mkStudent "A1" "Aisha Verma" "Computer Engg" (JNum 1) (JStr "A") (JNum 100) "2025-06-15").
Proof.
  cbv zeta.
  assert (notNumeric (JStr "abc")) as Hbad.
  { right. right. exists "abc". split; reflexivity. }
  assert (safeInteger 100) as H100 by safe_int.
  split; [exact Hbad | split; [exact H100 |]].
  exact (proj2 (payFees_after_nan "A1" (JStr "abc") (JNum 100) 100
                  (initialState "A1" "B2" "C3") 0 _ eq_refl eq_refl Hbad eq_refl H100)).
Defined.

(** ** Hostel figures *)

Lemma fold_left_map_ext {A B C : Type} (f : A -> B -> A) (g : C -> B)
  (h : A -> C -> A) (l : list C) (a : A) :
  (forall a x, f a (g x) = h a x) ->
  fold_left f (List.map g l) a = fold_left h l a.
Proof.
  intros E. revert a. induction l as [|x l IH]; intros a; simpl; [reflexivity |].
  now rewrite E, IH.
Qed.

Lemma occupancyStep_nullIfFalsy (acc : gmap string jsval) (s : Student) :
  occupancyStep acc (nullIfFalsy s) = occupancyStep acc s.
Proof.
  unfold nullIfFalsy. destruct (truthy (hostel s)) eqn:E; [reflexivity |].
  unfold occupancyStep. now rewrite E.
Qed.

(** X5.  The metrics cannot tell an empty or otherwise falsy hostel
    from [null]: replacing every falsy hostel by [null] changes neither
    [hostelOccupancy], nor [occupancyByHostel], nor [totalFees]. *)
Theorem metrics_ignore_falsy_hostel (l : list Student) :
  hostelOccupancy (List.map nullIfFalsy l) = hostelOccupancy l /\
  occupancyByHostel (List.map nullIfFalsy l) = occupancyByHostel l /\
  totalFees (List.map nullIfFalsy l) = totalFees l.
Proof.
  split; [| split].
  - unfold hostelOccupancy. induction l as [|s l IH]; [reflexivity |].
    simpl. unfold nullIfFalsy at 1.
    destruct (truthy (hostel s)) eqn:E; simpl; rewrite ?E; simpl; now rewrite ?IH.
  - unfold occupancyByHostel. apply fold_left_map_ext, occupancyStep_nullIfFalsy.
  - unfold totalFees. apply fold_left_map_ext. intros a s.
    unfold nullIfFalsy. now destruct (truthy (hostel s)).
Qed.

Lemma truthy_of_nat (n : nat) : truthy (JNum (Z.of_nat n)) = negb (n =? 0)%nat.
Proof.
  simpl. destruct (Nat.eqb_spec n 0) as [-> | H]; [reflexivity |].
  destruct (Z.eqb_spec (Z.of_nat n) 0); [lia | reflexivity].
Qed.

Lemma occupancyByHostel_snoc (l : list Student) (s : Student) :
  occupancyByHostel (l ++ [s])%list = occupancyStep (occupancyByHostel l) s.
Proof. unfold occupancyByHostel. now rewrite fold_left_app. Qed.

Lemma countLabel_snoc (k : string) (l : list Student) (s : Student) :
  countLabel k (l ++ [s])%list =
  (countLabel k l + (if bool_decide (label_of (hostel s) = Some k) then 1 else 0))%nat.
Proof.
  unfold countLabel. rewrite List.filter_app, List.length_app. simpl.
  now destruct (bool_decide _).
Qed.

Lemma occupancy_lookup_safe (l : list Student) :
  safeLabels l ->
  forall k, occupancyByHostel l !! k =
            if (countLabel k l =? 0)%nat then None
            else Some (JNum (Z.of_nat (countLabel k l))).
Proof.
  induction l as [|s l IH] using rev_ind; intros Hsafe k.
  - apply lookup_empty.
  - assert (safeLabels l) as Hl.
    { intros s' Hs'. apply Hsafe. apply in_or_app. now left. }
    specialize (IH Hl).
    rewrite occupancyByHostel_snoc, countLabel_snoc.
    unfold occupancyStep, label_of.
    destruct (truthy (hostel s)) eqn:Ht.
    2:{ rewrite bool_decide_eq_false_2 by discriminate. now rewrite Nat.add_0_r. }
    assert (inheritedKey (ToString (hostel s)) = false) as Hk.
    { apply Hsafe; [apply in_or_app; right; now left | exact Ht]. }
    destruct (protoGet_not_inherited _ Hk) as [Hproto Hne].
    set (k0 := ToString (hostel s)) in *.
    unfold setProp, getProp. rewrite Hne, (IH k0).
    assert (js_add (js_or (default (protoGet k0)
                             (if (countLabel k0 l =? 0)%nat then None
                              else Some (JNum (Z.of_nat (countLabel k0 l)))))
                          (JNum 0)) (JNum 1)
            = JNum (Z.of_nat (countLabel k0 l + 1))) as ->.
    { generalize (countLabel k0 l). intros c.
      destruct (Nat.eqb_spec c 0) as [-> | Hpos]; cbn [from_option]; unfold Datatypes.id.
      - now rewrite Hproto.
      - unfold js_or. rewrite truthy_of_nat.
        apply Nat.eqb_neq in Hpos as ->. cbn. f_equal. lia. }
    destruct (decide (k0 = k)) as [<- | Hkk].
    + rewrite lookup_insert_eq, bool_decide_eq_true_2 by reflexivity.
      destruct (Nat.eqb_spec (countLabel k0 l + 1) 0); [lia | reflexivity].
    + rewrite lookup_insert_ne by exact Hkk.
      rewrite bool_decide_eq_false_2 by congruence.
      now rewrite Nat.add_0_r.
Qed.

(** X6.  When no label in use is the name of a member of
    [Object.prototype], [occupancyByHostel] has, for every label, the
    number of records holding it as the value, and no key for a label
    that no record holds. *)
Theorem occupancyByHostel_counts (l : list Student) (k : string) :
  safeLabels l ->
  occupancyByHostel l !! k =
  if (countLabel k l =? 0)%nat then None
  else Some (JNum (Z.of_nat (countLabel k l))).
Proof. intros H. now apply occupancy_lookup_safe. Qed.

Lemma initialStudents_safe (id1 id2 id3 : string) :
  safeLabels (initialStudents id1 id2 id3).
Proof. intros s [<- | [<- | [<- | []]]]; reflexivity || discriminate. Qed.

Lemma occupancyByHostel_counts_witness :
  safeLabels (initialStudents "A1" "B2" "C3") /\
  occupancyByHostel (initialStudents "A1" "B2" "C3") !! "A" = Some (JNum 1) /\
  occupancyByHostel (initialStudents "A1" "B2" "C3") !! "C" = None.
Proof.
  split; [apply initialStudents_safe | split].
  - exact (occupancyByHostel_counts _ "A" (initialStudents_safe "A1" "B2" "C3")).
  - exact (occupancyByHostel_counts _ "C" (initialStudents_safe "A1" "B2" "C3")).
Defined.

(** X7.  The Hostel Summary card and the Hostel tab agree on when to
    print "No allocations yet", as long as no label in use is the name
    of a member of [Object.prototype]. *)
Theorem noAllocations_views_agree (st : AppState) :
  safeLabels (students st) ->
  summaryShowsNoAllocations st = hostelTabShowsNoAllocations st.
Proof.
  intros Hsafe. unfold summaryShowsNoAllocations, hostelTabShowsNoAllocations.
  rewrite truthy_of_nat, negb_involutive. cbn [metrics m_occupancyByHostel].
  fold (hostelOccupancy (students st)).
  destruct (occupancy_sum_safe _ Hsafe) as (Hsum & _ & Hkeys).
  destruct (Nat.eqb_spec (hostelOccupancy (students st)) 0) as [H0 | Hpos].
  - destruct (map_to_list (occupancyByHostel (students st))) as [|[k v] r] eqn:E;
      [reflexivity |].
    assert (occupancyByHostel (students st) !! k = Some v) as Hkv.
    { apply elem_of_map_to_list. rewrite E. now left. }
    destruct (Hkeys k v Hkv) as (s & Hs & Hl). exfalso.
    unfold label_of in Hl. destruct (truthy (hostel s)) eqn:Ht; [| discriminate].
    unfold hostelOccupancy in H0.
    assert (In s (List.filter (fun s => truthy (hostel s)) (students st))) as Hf.
    { apply List.filter_In. now split. }
    destruct (List.filter _ _); [contradiction | discriminate].
  - destruct (map_to_list (occupancyByHostel (students st))) as [|[k v] r] eqn:E;
      [| reflexivity].
    apply map_to_list_empty_iff in E. rewrite E in Hsum.
    unfold valuesSum in Hsum. rewrite map_fold_empty in Hsum. lia.
Qed.

Lemma noAllocations_views_agree_witness :
  let st := storeOf [zara (JStr "") (JNum 0)] in
  safeLabels (students st) /\
  summaryShowsNoAllocations st = true /\ hostelTabShowsNoAllocations st = true.
Proof.
  cbv zeta.
  assert (safeLabels (students (storeOf [zara (JStr "") (JNum 0)]))) as H.
  { intros s [<- | []]. discriminate. }
  split; [exact H |].
  split; [rewrite (noAllocations_views_agree _ H) |]; reflexivity.
Defined.

Lemma length_filter_cons {A : Type} (p : A -> bool) (x : A) (l : list A) :
  length (List.filter p (x :: l)) =
  ((if p x then 1 else 0) + length (List.filter p l))%nat.
Proof. simpl. now destruct (p x). Qed.

Lemma toggled_truthy (sid L : string) (x : Student) :
  L <> "" ->
  ((if truthy (hostel (toggled sid (JStr L) x)) then 1 else 0) +
   (if String.eqb (id x) sid && strict_eq (hostel x) (JStr L) then 1 else 0) =
   (if truthy (hostel x) then 1 else 0) +
   (if String.eqb (id x) sid && negb (truthy (hostel x)) then 1 else 0))%nat.
Proof.
  intros HL. unfold toggled. destruct (String.eqb (id x) sid); simpl.
  2:{ now rewrite !Nat.add_0_r. }
  destruct (strict_eq (hostel x) (JStr L)) eqn:E; simpl.
  - apply strict_eq_JStr in E. rewrite E. simpl.
    apply String.eqb_neq in HL. now rewrite HL.
  - apply String.eqb_neq in HL. rewrite HL. simpl.
    now destruct (truthy (hostel x)).
Qed.

(** X8.  A toggle with a non-empty label [L] moves [hostelOccupancy] up
    by the number of matched records that had no hostel and down by the
    number of matched records that held [L]; a matched record holding
    another label changes hostel without changing the figure. *)
Theorem hostelOccupancy_after_toggle (sid L : string) (st : AppState) :
  L <> "" ->
  (hostelOccupancy (students (after (toggleHostel sid (JStr L) st))) +
   countHolding sid L (students st) =
   hostelOccupancy (students st) + countWithout sid (students st))%nat.
Proof.
  intros HL. rewrite toggleHostel_students.
  unfold hostelOccupancy, countHolding, countWithout.
  induction (students st) as [|x l IH]; [reflexivity |].
  cbn [List.map]. rewrite !length_filter_cons.
  pose proof (toggled_truthy sid L x HL) as Hx. lia.
Qed.

Lemma hostelOccupancy_after_toggle_witness :
  let st := initialState "A1" "B2" "C3" in
  "A" <> "" /\
  (hostelOccupancy (students (after (toggleHostel "C3" (JStr "A") st))) + 0 = 2 + 1)%nat /\
  (hostelOccupancy (students (after (toggleHostel "A1" (JStr "A") st))) + 1 = 2 + 0)%nat /\
  (hostelOccupancy (students (after (toggleHostel "B2" (JStr "A") st))) + 0 = 2 + 0)%nat.
Proof.
  cbv zeta.
  assert ("A" <> "") as HA by discriminate.
  split; [exact HA | split; [| split]].
  - exact (hostelOccupancy_after_toggle "C3" "A" (initialState "A1" "B2" "C3") HA).
  - exact (hostelOccupancy_after_toggle "A1" "A" (initialState "A1" "B2" "C3") HA).
  - exact (hostelOccupancy_after_toggle "B2" "A" (initialState "A1" "B2" "C3") HA).
Defined.

Lemma hostelOccupancy_release (l : list Student) (i : nat) (s : Student) :
  l !! i = Some s -> truthy (hostel s) = true ->
  (hostelOccupancy (<[i := with_hostel s JNull]> l) + 1 = hostelOccupancy l)%nat.
Proof.
  unfold hostelOccupancy. revert i. induction l as [|x l IH]; intros [|i] Hi Ht;
    try discriminate.
  - injection Hi as ->. cbn [insert list_insert]. rewrite !length_filter_cons.
    cbn [hostel with_hostel truthy]. rewrite Ht. lia.
  - specialize (IH i Hi Ht).
    change (<[S i := with_hostel s JNull]> (x :: l))
      with (x :: <[i := with_hostel s JNull]> l).
    rewrite !length_filter_cons. lia.
Qed.

(** X9.  When the ids of the roster are pairwise distinct, the Release
    button of a record that holds a hostel clears the hostel of that
    record, changes no other record, and lowers [hostelOccupancy] by
    exactly one. *)
Theorem release_button (st : AppState) (i : nat) (s : Student) (L : string) :
  List.NoDup (ids st) ->
  students st !! i = Some s -> hostel s = JStr L -> L <> "" ->
  students (after (uiDispatch (ReleaseButton s) st)) =
    <[i := with_hostel s JNull]> (students st) /\
  (hostelOccupancy (students (after (uiDispatch (ReleaseButton s) st))) + 1 =
   hostelOccupancy (students st))%nat.
Proof.
  intros Hnd Hi Hh HL.
  assert (students (after (uiDispatch (ReleaseButton s) st)) =
          <[i := with_hostel s JNull]> (students st)) as Heq.
  { cbn [uiDispatch]. rewrite Hh, toggleHostel_students.
    apply list_eq. intros j. rewrite lookup_map.
    destruct (decide (i = j)) as [<- | Hij].
    - rewrite Hi, list_lookup_insert_eq by (now apply lookup_lt_Some in Hi).
      simpl. rewrite toggled_matched by reflexivity.
      now destruct (decide (hostel s = JStr L)).
    - rewrite list_lookup_insert_ne by exact Hij.
      destruct (students st !! j) as [s'|] eqn:Hj; [| reflexivity].
      simpl. f_equal. apply toggled_other. intros Hid. apply Hij.
      apply (NoDup_lookup (ids st) i j (id s) (proj2 (NoDup_ListNoDup _) Hnd));
        unfold ids; rewrite lookup_map.
      + now rewrite Hi.
      + rewrite Hj. simpl. now rewrite Hid. }
  split; [exact Heq |]. rewrite Heq.
  apply hostelOccupancy_release; [exact Hi |].
  rewrite Hh. simpl. apply String.eqb_neq in HL. now rewrite HL.
Qed.

Lemma release_button_witness :
  let st := initialState "A1" "B2" "C3" in
  let rohit := mkStudent "B2" "Rohit Sharma" "Electronics" (JNum 2) (JStr "B") (JNum 20000)
                         "2024-08-21" in
  List.NoDup (ids st) /\
  hostelOccupancy (students (after (uiDispatch (ReleaseButton rohit) st))) + 1 = 2.
Proof.
  cbv zeta.
  assert (List.NoDup (ids (initialState "A1" "B2" "C3"))) as Hnd.
  { repeat constructor; simpl; intuition discriminate. }
  split; [exact Hnd |].
  refine (proj2 (release_button (initialState "A1" "B2" "C3") 1 _ "B" Hnd eq_refl eq_refl _)).
  discriminate.
Defined.

(** ** Records are never removed, moved or renamed *)

Lemma sameCore_refl (s : Student) : sameCore s s.
Proof. now repeat split. Qed.

Lemma sameCore_trans (a b c : Student) : sameCore a b -> sameCore b c -> sameCore a c.
Proof. unfold sameCore. intuition congruence. Qed.

Lemma dispatch_students_shape (ev : Event) (st : AppState) :
  students (after (dispatch ev st)) = students st \/
  (exists s0, students (after (dispatch ev st)) = s0 :: students st) \/
  (exists f, (forall s, sameCore s (f s)) /\
             students (after (dispatch ev st)) = List.map f (students st)).
Proof.
  destruct ev as [newId now | sid amount | sid h | e]; simpl.
  - destruct (handleAdmit_students newId now st) as [-> | (s0 & _ & _ & ->)];
      [now left | right; left; now exists s0].
  - right. right. eexists. split; [| reflexivity].
    intros s. cbv beta. destruct (String.eqb (id s) sid); now repeat split.
  - right. right. eexists. split; [| reflexivity].
    intros s. cbv beta. destruct (String.eqb (id s) sid); now repeat split.
  - now left.
Qed.

Lemma uiDispatch_students_shape (e : UiEvent) (st : AppState) :
  students (after (uiDispatch e st)) = students st \/
  (exists s0, students (after (uiDispatch e st)) = s0 :: students st) \/
  (exists f, (forall s, sameCore s (f s)) /\
             students (after (uiDispatch e st)) = List.map f (students st)).
Proof.
  assert (forall sid h, exists f, (forall s, sameCore s (f s)) /\
            students (after (toggleHostel sid h st)) = List.map f (students st)) as Ht.
  { intros sid h. eexists. split; [| reflexivity].
    intros s. cbv beta. destruct (String.eqb (id s) sid); now repeat split. }
  destruct e; simpl; try (now left).
  - apply dispatch_students_shape.
  - right. right. apply Ht.
  - right. right. apply Ht.
  - destruct (truthy (selectedStudentId st)); [right; right; apply Ht | now left].
  - destruct (financePanel st) as [[student|]|]; try (now left).
    unfold payButtonClick. destruct (negb _); [now left |].
    right. right. eexists. split; [| reflexivity].
    intros s. cbv beta. destruct (String.eqb (id s) (id student)); now repeat split.
Qed.

(** X10.  No run of the component removes, moves or renames a record:
    after any sequence of user actions the roster consists of [k] newly
    admitted records followed by the old ones, each at its old place
    after the new ones and with the id, name, branch, year and
    admission date it had. *)
Theorem roster_only_grows (evs : list UiEvent) (st : AppState) :
  exists k,
    length (students (uiRun evs st)) = k + length (students st) /\
    forall i s, students st !! i = Some s ->
      exists s', students (uiRun evs st) !! (k + i) = Some s' /\ sameCore s s'.
Proof.
  revert st. induction evs as [|e evs IH]; intros st.
  - exists 0. split; [reflexivity |]. intros i s Hi. exists s. split; [exact Hi | apply sameCore_refl].
  - destruct (IH (after (uiDispatch e st))) as (k & Hlen & Hrec). cbn [uiRun fold_left].
    fold (uiRun evs (after (uiDispatch e st))).
    destruct (uiDispatch_students_shape e st) as [E | [(s0 & E) | (f & Hf & E)]];
      rewrite E in Hlen, Hrec.
    + exists k. split; [exact Hlen | exact Hrec].
    + exists (k + 1). split; [cbn [length] in Hlen; lia |].
      intros i s Hi. destruct (Hrec (S i) s Hi) as (s' & Hs' & Hc).
      exists s'. split; [| exact Hc]. now replace (k + 1 + i) with (k + S i) by lia.
    + exists k. split; [now rewrite length_map in Hlen |].
      intros i s Hi. destruct (Hrec i (f s)) as (s' & Hs' & Hc).
      { now rewrite lookup_map, Hi. }
      exists s'. split; [exact Hs' |]. exact (sameCore_trans _ _ _ (Hf s) Hc).
Qed.

(** ** Submitting the form twice *)

Lemma handleAdmit_invalid (newId now : string) (st : AppState) :
  Form.name (form st) = "" \/ Form.branch (form st) = "" ->
  handleAdmit newId now st = mkOutcome (Some "Name and branch required") st.
Proof.
  unfold handleAdmit. intros [-> | ->]; simpl; [reflexivity |].
  now rewrite orb_true_r.
Qed.

Lemma handleAdmit_leaves_invalid_form (newId now : string) (st : AppState) :
  Form.name (form (after (handleAdmit newId now st))) = "" \/
  Form.branch (form (after (handleAdmit newId now st))) = "".
Proof.
  unfold handleAdmit.
  destruct (negb (truthy (JStr (Form.name (form st))))) eqn:E1;
    destruct (negb (truthy (JStr (Form.branch (form st))))) eqn:E2; cbn.
  - left. apply negb_true_iff in E1. now apply truthy_JStr.
  - left. apply negb_true_iff in E1. now apply truthy_JStr.
  - right. apply negb_true_iff in E2. now apply truthy_JStr.
  - now left.
Qed.

(** X11.  Submitting the admission form a second time right after a
    first submit always fails and changes nothing: a successful submit
    has cleared the form, a failed one has left it invalid.  One filled
    form admits at most one record. *)
Theorem handleAdmit_twice (newId now newId' now' : string) (st : AppState) :
  let st1 := after (handleAdmit newId now st) in
  failed (handleAdmit newId' now' st1) /\ after (handleAdmit newId' now' st1) = st1.
Proof.
  cbv zeta.
  rewrite (handleAdmit_invalid newId' now' _ (handleAdmit_leaves_invalid_form newId now st)).
  split; [discriminate | reflexivity].
Qed.

(** ** Searching *)

Lemma append_assoc (a b c : string) : (a ++ b) ++ c = a ++ b ++ c.
Proof.
  induction a as [|x a IH]; [reflexivity |].
  change (String x ((a ++ b) ++ c) = String x (a ++ b ++ c)). now f_equal.
Qed.

Lemma append_nil_r (a : string) : a ++ "" = a.
Proof.
  induction a as [|x a IH]; [reflexivity |].
  change (String x (a ++ "") = String x a). now f_equal.
Qed.

Lemma includes_app (t q a b : string) :
  includes t (a ++ q ++ b) = true -> includes t q = true.
Proof.
  rewrite !includes_spec. intros (pre & post & ->).
  exists (pre ++ a), (b ++ post). now rewrite !append_assoc.
Qed.

Lemma includes_in_app (a b c q : string) :
  includes b q = true -> includes (a ++ b ++ c) q = true.
Proof.
  rewrite !includes_spec. intros (pre & post & ->).
  exists (a ++ pre), (post ++ c). now rewrite !append_assoc.
Qed.

(** X12.  For ASCII text, typing more narrows the list: every record
    shown for a query that contains [q] (text typed before or after it)
    is also shown for [q]. *)
Theorem filtered_narrows (st : AppState) (a q b : string) (s : Student) :
  isAscii (joinedText s) = true -> isAscii (a ++ q ++ b) = true ->
  In s (filtered (with_query st (a ++ q ++ b))) ->
  In s (filtered (with_query st q)).
Proof.
  intros _ _. unfold filtered. cbn [with_query query students]. rewrite !List.filter_In.
  intros [Hin Hm]. split; [exact Hin |].
  unfold matches in *. rewrite !toLowerCase_app in Hm. now apply includes_app in Hm.
Qed.

Lemma filtered_narrows_witness :
  let st := initialState "A1" "B2" "C3" in
  let rohit := mkStudent "B2" "Rohit Sharma" "Electronics" (JNum 2) (JStr "B") (JNum 20000)
                         "2024-08-21" in
  isAscii (joinedText rohit) = true /\ isAscii ("it " ++ "SHAR" ++ "ma e") = true /\
  In rohit (filtered (with_query st "SHAR")).
Proof.
  cbv zeta. split; [reflexivity | split; [reflexivity |]].
  apply (filtered_narrows (initialState "A1" "B2" "C3") "it " "SHAR" "ma e"
           (mkStudent "B2" "Rohit Sharma" "Electronics" (JNum 2) (JStr "B") (JNum 20000)
                      "2024-08-21") eq_refl eq_refl).
  vm_compute. left. reflexivity.
Defined.

(** X13.  For ASCII text, a record is shown whenever the query occurs,
    letter case ignored, inside its name, inside its branch or inside
    its id. *)
Theorem filtered_finds_fields (st : AppState) (s : Student) :
  isAscii (joinedText s) = true -> isAscii (query st) = true ->
  In s (students st) ->
  ci_contains (name s) (query st) \/ ci_contains (branch s) (query st) \/
  ci_contains (id s) (query st) ->
  In s (filtered st).
Proof.
  intros _ _ Hin H. unfold filtered. apply List.filter_In. split; [exact Hin |].
  unfold matches. rewrite join3, !toLowerCase_app.
  destruct H as [H | [H | H]]; apply includes_lower_iff in H.
  - exact (includes_in_app EmptyString (toLowerCase (name s))
             (toLowerCase " " ++ toLowerCase (branch s) ++ toLowerCase " "
              ++ toLowerCase (id s)) _ H).
  - pose proof (includes_in_app (toLowerCase (name s) ++ toLowerCase " ")
                  (toLowerCase (branch s)) (toLowerCase " " ++ toLowerCase (id s)) _ H) as H'.
    now rewrite append_assoc in H'.
  - pose proof (includes_in_app
                  (toLowerCase (name s) ++ toLowerCase " " ++ toLowerCase (branch s)
                   ++ toLowerCase " ") (toLowerCase (id s)) EmptyString _ H) as H'.
    now rewrite !append_assoc, append_nil_r in H'.
Qed.

Lemma filtered_finds_fields_witness :
  let st := with_query (initialState "A1" "B2" "C3") "MECH" in
  let maya := mkStudent "C3" "Maya Nair" "Mechanical" (JNum 3) JNull (JNum 0) "2023-07-01" in
  isAscii (joinedText maya) = true /\ isAscii (query st) = true /\
  ci_contains (branch maya) (query st) /\ In maya (filtered st).
Proof.
  cbv zeta.
  assert (ci_contains "Mechanical" "MECH") as H.
  { exists "", "Mech", "anical". split; reflexivity. }
  split; [reflexivity | split; [reflexivity | split; [exact H |]]].
  apply (filtered_finds_fields (with_query (initialState "A1" "B2" "C3") "MECH")
           (mkStudent "C3" "Maya Nair" "Mechanical" (JNum 3) JNull (JNum 0) "2023-07-01")
           eq_refl eq_refl).
  - vm_compute. right. right. left. reflexivity.
  - right. left. exact H.
Defined.

Lemma filter_map_commute {A : Type} (p : A -> bool) (f : A -> A) (l : list A) :
  (forall x, p (f x) = p x) ->
  List.filter p (List.map f l) = List.map f (List.filter p l).
Proof.
  intros H. induction l as [|x l IH]; simpl; [reflexivity |].
  rewrite H. destruct (p x); simpl; now rewrite IH.
Qed.

(** X14.  Payments and hostel toggles never change which records a
    search shows: the filtered list after the handler is the filtered
    list before it with the same update applied. *)
Theorem filtered_stable (sid : string) (v : jsval) (st : AppState) :
  filtered (after (handlePayFees sid v st)) = payFeesUpdate sid v (filtered st) /\
  filtered (after (toggleHostel sid v st)) = toggleHostelUpdate sid v (filtered st).
Proof.
  unfold filtered. split; simpl.
  - unfold payFeesUpdate. apply filter_map_commute.
    intros s. now destruct (String.eqb (id s) sid).
  - unfold toggleHostelUpdate. apply filter_map_commute.
    intros s. now destruct (String.eqb (id s) sid).
Qed.

(** ** The Pay button *)

(** X15.  The Pay button refuses only the empty input, with the alert
    "Enter amount" and no change of state.  Every other text, the text
    "0", a negative number and text that is not a number included, is
    passed as it is to [handlePayFees] for the record shown. *)
Theorem payButtonClick_guard (student : Student) (value : string) (st : AppState) :
  (failed (payButtonClick student value st) <-> value = "") /\
  (value = "" -> payButtonClick student value st = mkOutcome (Some "Enter amount") st) /\
  (value <> "" ->
     payButtonClick student value st = handlePayFees (id student) (JStr value) st).
Proof.
  unfold payButtonClick, js_or, failed.
  destruct (truthy (JStr value)) eqn:E.
  - assert (value <> "") as Hne.
    { intros Hv. apply truthy_JStr in Hv. congruence. }
    rewrite E. cbn [negb]. split; [| split].
    + split; [intros H; now contradiction H | intros Hv; contradiction].
    + intros Hv. contradiction.
    + reflexivity.
  - apply truthy_JStr in E. subst value. cbn. split; [| split].
    + split; [reflexivity | discriminate].
    + reflexivity.
    + intros H. contradiction.
Qed.

(** ** The selected student *)

Lemma ids_after_uiDispatch (e : UiEvent) (st : AppState) :
  forall v, In v (ids st) -> In v (ids (after (uiDispatch e st))).
Proof.
  intros v Hv. unfold ids in *.
  destruct (uiDispatch_students_shape e st) as [-> | [(s0 & ->) | (f & Hf & ->)]].
  - exact Hv.
  - now right.
  - rewrite List.map_map.
    erewrite List.map_ext; [exact Hv |]. intros s. apply (Hf s).
Qed.

Lemma handleAdmit_selected (newId now : string) (st : AppState) :
  selectedStudentId (after (handleAdmit newId now st)) = selectedStudentId st.
Proof. unfold handleAdmit. now destruct (_ || _). Qed.

Lemma selectionValid_step (e : UiEvent) (st : AppState) :
  offered e st -> selectionValid st -> selectionValid (after (uiDispatch e st)).
Proof.
  intros Hoff Hsel.
  assert (selectedStudentId (after (uiDispatch e st)) = selectedStudentId st ->
          selectionValid (after (uiDispatch e st))) as Hkeep.
  { intros E. destruct Hsel as [H | (v & H & Hv)]; [left; congruence | right].
    exists v. split; [congruence |].
    destruct Hv as [-> | Hv]; [now left | right; now apply ids_after_uiDispatch]. }
  destruct e; try (apply Hkeep; reflexivity).
  - apply Hkeep. destruct ev; try reflexivity. apply handleAdmit_selected.
  - right. exists v. split; [reflexivity | exact (proj2 Hoff)].
  - right. exists (id s). split; [reflexivity |]. right.
    destruct Hoff as [_ Hin]. unfold filtered in Hin. apply List.filter_In in Hin as [Hin _].
    unfold ids. now apply List.in_map.
  - apply Hkeep. simpl. now destruct (truthy (selectedStudentId st)).
  - apply Hkeep. simpl. destruct (financePanel st) as [[student|]|]; try reflexivity.
    unfold payButtonClick. now destruct (negb _).
Qed.

Lemma selectionValid_run (evs : list UiEvent) (st : AppState) :
  allOffered evs st -> selectionValid st -> selectionValid (uiRun evs st).
Proof.
  revert st. induction evs as [|e evs IH]; intros st Hoff Hsel; [exact Hsel |].
  destruct Hoff as [He Hrest]. simpl. apply IH; [exact Hrest |].
  now apply selectionValid_step.
Qed.

Lemma selectionValid_panel (st : AppState) :
  selectionValid st -> financePanel st <> Some None.
Proof.
  intros Hsel. unfold financePanel.
  destruct (truthy (selectedStudentId st)) eqn:Ht; [| discriminate].
  intros H. injection H as H.
  destruct Hsel as [E | (v & E & Hv)]; rewrite E in *; [discriminate |].
  destruct Hv as [-> | Hv]; [discriminate |].
  unfold ids in Hv. apply in_map_iff in Hv as (s & <- & Hs).
  pose proof (List.find_none _ _ H s Hs) as Hf. simpl in Hf.
  now rewrite String.eqb_refl in Hf.
Qed.

(** X16.  Starting from the initial state, as long as the user only
    uses what the page offers, [selectedStudentId] is [null], the empty
    option or the id of a record of the roster; so the finance panel,
    when it is rendered, always finds its student and never reads a
    field of [undefined]. *)
Theorem financePanel_finds_student (evs : list UiEvent) (id1 id2 id3 : string) :
  allOffered evs (initialState id1 id2 id3) ->
  selectionValid (uiRun evs (initialState id1 id2 id3)) /\
  financePanel (uiRun evs (initialState id1 id2 id3)) <> Some None.
Proof.
  intros Hoff.
  assert (selectionValid (uiRun evs (initialState id1 id2 id3))) as H.
  { apply selectionValid_run; [exact Hoff |].
    unfold selectionValid, initialState, js_or. cbn [selectedStudentId].
    destruct (truthy (JStr id1)); [right | now left].
    exists id1. split; [reflexivity |]. right. now left. }
  split; [exact H | now apply selectionValid_panel].
Qed.

Lemma financePanel_finds_student_witness :
  let maya := mkStudent "C3" "Maya Nair" "Mechanical" (JNum 3) JNull (JNum 0) "2023-07-01" in
  let evs := [OpenTab "students"; ReceiptButton maya; PayButton "500"] in
  allOffered evs (initialState "A1" "B2" "C3") /\
  financePanel (uiRun evs (initialState "A1" "B2" "C3")) <> Some None.
Proof.
  cbv zeta.
  assert (allOffered
            [OpenTab "students";
             ReceiptButton (mkStudent "C3" "Maya Nair" "Mechanical" (JNum 3) JNull (JNum 0)
                                      "2023-07-01");
             PayButton "500"] (initialState "A1" "B2" "C3")) as Hoff.
  { split; [right; left; reflexivity |].
    split; [split; [reflexivity | right; right; left; reflexivity] |].
    split; [split; [reflexivity | eexists; reflexivity] | exact I]. }
  split; [exact Hoff |].
  exact (proj2 (financePanel_finds_student _ "A1" "B2" "C3" Hoff)).
Defined.

(** ** [generateReceipt] *)

Lemma append_inj_l (p a b : string) : p ++ a = p ++ b -> a = b.
Proof.
  induction p as [|c p IH]; intros H; [exact H |].
  apply IH. change (String c (p ++ a) = String c (p ++ b)) in H. congruence.
Qed.

Lemma split_at_newline (a a' r r' : string) :
  hasNewline a = false -> hasNewline a' = false ->
  a ++ newline ++ r = a' ++ newline ++ r' -> a = a' /\ r = r'.
Proof.
  revert a'. induction a as [|c a IH]; intros [|c' a'] Ha Ha' H.
  - split; [reflexivity |]. change (newline ++ r = newline ++ r') in H.
    now apply (append_inj_l newline) in H.
  - exfalso. change (String (ascii_of_nat 10) r = String c' (a' ++ newline ++ r')) in H.
    injection H as Hc _. simpl in Ha'. rewrite <- Hc in Ha'. discriminate.
  - exfalso. change (String c (a ++ newline ++ r) = String (ascii_of_nat 10) r') in H.
    injection H as Hc _. simpl in Ha. rewrite Hc in Ha. discriminate.
  - change (String c (a ++ newline ++ r) = String c' (a' ++ newline ++ r')) in H.
    injection H as Hc H. simpl in Ha, Ha'.
    apply orb_false_iff in Ha as [_ Ha]. apply orb_false_iff in Ha' as [_ Ha'].
    destruct (IH a' Ha Ha' H) as [-> ->]. now subst.
Qed.

(** X17.  A receipt can be read back: when the ids, the names and the
    printed amounts contain no line break, two equal receipts carry the
    same id, the same name, the same printed amount and the same
    date. *)
Theorem generateReceipt_injective (s s' : Student) (now now' : string) :
  hasNewline (id s) = false -> hasNewline (id s') = false ->
  hasNewline (name s) = false -> hasNewline (name s') = false ->
  hasNewline (ToString (feesPaid s)) = false ->
  hasNewline (ToString (feesPaid s')) = false ->
  generateReceipt s now = generateReceipt s' now' ->
  id s = id s' /\ name s = name s' /\
  ToString (feesPaid s) = ToString (feesPaid s') /\ now = now'.
Proof.
  intros Hi Hi' Hn Hn' Hf Hf' H. unfold generateReceipt in H.
  apply (append_inj_l "Receipt"), (append_inj_l newline), (append_inj_l "ID: ") in H.
  apply split_at_newline in H as [Eid H]; [| exact Hi | exact Hi'].
  apply (append_inj_l "Name: ") in H.
  apply split_at_newline in H as [Ename H]; [| exact Hn | exact Hn'].
  apply (append_inj_l "Amount Paid: "), (append_inj_l currencyMark) in H.
  apply split_at_newline in H as [Efees H]; [| exact Hf | exact Hf'].
  apply (append_inj_l "Date: ") in H.
  now repeat split.
Qed.

Lemma generateReceipt_injective_witness :
  let s := zara JNull (JNum 7500) in
  let s' := zara (JStr "A") (JNum 7500) in
  generateReceipt s "2025-01-10" = generateReceipt s' "2025-01-10" /\
  ToString (feesPaid s) = ToString (feesPaid s').
Proof.
  cbv zeta.
  assert (generateReceipt (zara JNull (JNum 7500)) "2025-01-10" =
          generateReceipt (zara (JStr "A") (JNum 7500)) "2025-01-10") as H.
  { reflexivity. }
  split; [exact H |].
  exact (proj1 (proj2 (proj2
    (generateReceipt_injective (zara JNull (JNum 7500)) (zara (JStr "A") (JNum 7500))
       "2025-01-10" "2025-01-10" eq_refl eq_refl eq_refl eq_refl eq_refl eq_refl H)))).
Defined.

(** ** [Sparkbar] *)

(** X18.  Neither divisor of [Sparkbar] is ever zero: the maximum is at
    least 1 and at least every value, and the step divisor is the
    number of values minus one, except for a single value, where it is
    1 (for no value at all it is -1). *)
Theorem sparkbar_divisors (values : list Z) :
  (1 <= sparkMax values)%Z /\
  (forall v, In v values -> (v <= sparkMax values)%Z) /\
  sparkStepDivisor values <> 0%Z /\
  sparkStepDivisor values =
    (if (length values =? 1)%nat then 1 else Z.of_nat (length values) - 1)%Z.
Proof.
  assert (sparkStepDivisor values =
          (if (length values =? 1)%nat then 1 else Z.of_nat (length values) - 1)%Z) as Hd.
  { unfold sparkStepDivisor, js_or. cbn [truthy].
    destruct (Nat.eqb_spec (length values) 1) as [-> | Hne]; [reflexivity |].
    destruct (Z.eqb_spec (Z.of_nat (length values) - 1) 0); [lia | reflexivity]. }
  split; [| split; [| split; [| exact Hd]]].
  - clear Hd. unfold sparkMax. induction values as [|v l IH]; cbn [fold_right]; lia.
  - clear Hd. unfold sparkMax.
    induction values as [|v l IH]; intros w []; cbn [fold_right].
    + subst. lia.
    + specialize (IH w H). lia.
  - rewrite Hd. destruct (Nat.eqb_spec (length values) 1); lia.
Qed.

(** ** [uid] *)

Lemma length_toUpperCase (s : string) : String.length (toUpperCase s) = String.length s.
Proof. induction s as [|c s IH]; simpl; congruence. Qed.

Lemma length_substring (n m : nat) (s : string) :
  String.length (substring n m s) = Nat.min m (String.length s - n).
Proof.
  revert n m. induction s as [|c s IH]; intros [|n] [|m]; simpl; try reflexivity.
  - now rewrite IH, Nat.sub_0_r.
  - apply IH.
  - apply IH.
Qed.

Lemma upper_ascii_twice (c : ascii) : upper_ascii (upper_ascii c) = upper_ascii c.
Proof. destruct c as [[] [] [] [] [] [] [] []]; reflexivity. Qed.

Lemma toUpperCase_twice (s : string) : toUpperCase (toUpperCase s) = toUpperCase s.
Proof.
  induction s as [|c s IH]; simpl; [reflexivity |].
  now rewrite upper_ascii_twice, IH.
Qed.

(** X19.  [uid()] returns the characters 3 to 9 of the random text, so at
    most 7 characters, none of them a lowercase letter; it returns the
    empty string exactly when the random text has at most 2 characters
    (as the text "0" of the random number 0). *)
Theorem uid_shape (randomText : string) :
  String.length (uid randomText) = Nat.min 7 (String.length randomText - 2) /\
  toUpperCase (uid randomText) = uid randomText /\
  (uid randomText = "" <-> String.length randomText <= 2).
Proof.
  assert (String.length (uid randomText) = Nat.min 7 (String.length randomText - 2)) as Hl.
  { unfold uid, slice. now rewrite length_toUpperCase, length_substring. }
  split; [exact Hl | split].
  - unfold uid. apply toUpperCase_twice.
  - split.
    + intros E. rewrite E in Hl. cbn [String.length] in Hl. lia.
    + intros Hle. destruct (uid randomText) eqn:E; [reflexivity |].
      cbn [String.length] in Hl. lia.
Qed.

(** ** The menu of [src/script.js] *)

(** X20.  After a click on a menu item, that item and no other carries
    the class "active"; every other class of every item is as before,
    and the number of items is unchanged. *)
Theorem menuClick_spec (k : nat) (items : list (gset string)) :
  k < length items ->
  length (menuClick k items) = length items /\
  forall i c, items !! i = Some c ->
    exists c', menuClick k items !! i = Some c' /\
               ("active" ∈ c' <-> i = k) /\
               forall cls, cls <> "active" -> (cls ∈ c' <-> cls ∈ c).
Proof.
  intros Hk. unfold menuClick.
  destruct (lookup_lt_is_Some_2 items k Hk) as [ck Hck].
  rewrite lookup_map, Hck. cbn [fmap option_fmap option_map].
  split; [now rewrite length_insert, length_map |].
  intros i c Hi. destruct (decide (i = k)) as [-> | Hne].
  - rewrite list_lookup_insert_eq by (now rewrite length_map).
    eexists. split; [reflexivity |]. split.
    + split; [reflexivity | intros _]. apply elem_of_union_r. now apply elem_of_singleton.
    + intros cls Hcls. rewrite Hck in Hi. injection Hi as <-.
      rewrite elem_of_union, elem_of_difference, elem_of_singleton. tauto.
  - rewrite list_lookup_insert_ne by congruence.
    rewrite lookup_map, Hi. eexists. split; [reflexivity |]. split.
    + rewrite elem_of_difference, elem_of_singleton. tauto.
    + intros cls Hcls. rewrite elem_of_difference, elem_of_singleton. tauto.
Qed.

Lemma menuClick_spec_witness :
  let items : list (gset string) := [{["active"]}; ∅; {["hidden"]}] in
  2 < length items /\ length (menuClick 2 items) = 3.
Proof.
  cbv zeta. split; [simpl; lia |].
  refine (proj1 (menuClick_spec 2 [{["active"]}; ∅; {["hidden"]}] _)). simpl. lia.
Defined.

(** ** How the handlers compose *)

Lemma payFees_twice_lookup (i j : string) (a b : jsval) (x y : Z) (st : AppState)
  (k : nat) (s : Student) (f : Z) :
  students st !! k = Some s -> feesPaid s = JNum f ->
  ToNumber a = JNum x -> ToNumber b = JNum y ->
  students (after (handlePayFees j b (after (handlePayFees i a st)))) !! k =
  Some (with_feesPaid s
          (JNum (f + (if String.eqb (id s) i then x else 0)
                   + (if String.eqb (id s) j then y else 0)))).
Proof.
  intros Hk Hf Ha Hb.
  pose proof (payFees_numeric i a st k s f x Hk Hf Ha) as H1.
  now rewrite (payFees_numeric j b _ k _ _ y H1 eq_refl Hb).
Qed.

(** X21.  Two payments of integer amounts on a roster of integer
    balances can be made in either order, as long as the amounts and
    every balance, with either amount or both added, stay within 2^53
    in magnitude: the resulting states are equal. *)
Theorem payFees_commute (i j : string) (a b : jsval) (x y : Z) (st : AppState) :
  (forall s, In s (students st) ->
     exists f, feesPaid s = JNum f /\ safeInteger f /\ safeInteger (f + x) /\
               safeInteger (f + y) /\ safeInteger (f + x + y)) ->
  ToNumber a = JNum x -> safeInteger x ->
  ToNumber b = JNum y -> safeInteger y ->
  after (handlePayFees j b (after (handlePayFees i a st))) =
  after (handlePayFees i a (after (handlePayFees j b st))).
Proof.
  intros Hnum Ha _ Hb _.
  assert (students (after (handlePayFees j b (after (handlePayFees i a st)))) =
          students (after (handlePayFees i a (after (handlePayFees j b st))))) as Hst.
  { apply list_eq. intros k.
    destruct (students st !! k) as [s|] eqn:Hk.
    - destruct (Hnum s) as (f & Hf & _).
      { apply list_elem_of_In. apply list_elem_of_lookup. now exists k. }
      rewrite (payFees_twice_lookup i j a b x y st k s f Hk Hf Ha Hb).
      rewrite (payFees_twice_lookup j i b a y x st k s f Hk Hf Hb Ha).
      do 2 f_equal. f_equal. lia.
    - now rewrite !payFees_lookup, Hk. }
  transitivity (with_students st
                  (students (after (handlePayFees j b (after (handlePayFees i a st))))));
    [reflexivity |].
  now rewrite Hst.
Qed.

Lemma payFees_commute_witness :
  let st := initialState "A1" "B2" "C3" in
  (forall s, In s (students st) ->
     exists f, feesPaid s = JNum f /\ safeInteger f /\ safeInteger (f + 100) /\
               safeInteger (f + -250) /\ safeInteger (f + 100 + -250)) /\
  after (handlePayFees "B2" (JStr "-250") (after (handlePayFees "A1" (JNum 100) st))) =
  after (handlePayFees "A1" (JNum 100) (after (handlePayFees "B2" (JStr "-250") st))).
Proof.
  cbv zeta.
  assert (forall s, In s (students (initialState "A1" "B2" "C3")) ->
     exists f, feesPaid s = JNum f /\ safeInteger f /\ safeInteger (f + 100) /\
               safeInteger (f + -250) /\ safeInteger (f + 100 + -250)) as H.
  { intros s [<- | [<- | [<- | []]]]; eexists; (split; [reflexivity |]);
      unfold safeInteger, maxSafe; lia. }
  assert (safeInteger 100 /\ safeInteger (-250)) as [H1 H2]
    by (unfold safeInteger, maxSafe; lia).
  split; [exact H |].
  exact (payFees_commute "A1" "B2" (JNum 100) (JStr "-250") 100 (-250) _ H
           eq_refl H1 eq_refl H2).
Defined.

(** X22.  A successful admission raises the head count by one, leaves
    the fees total as it was, and raises the hostel occupancy by one
    exactly when some text was typed in the hostel input. *)
Theorem metrics_after_admission (newId now : string) (st : AppState) :
  numbersOnly st ->
  ~ failed (handleAdmit newId now st) ->
  let st' := after (handleAdmit newId now st) in
  m_totalStudents (metrics st') = S (m_totalStudents (metrics st)) /\
  m_totalFees (metrics st') = m_totalFees (metrics st) /\
  m_hostelOccupancy (metrics st') =
    ((if String.eqb (Form.hostel (form st)) "" then 0 else 1)
     + m_hostelOccupancy (metrics st))%nat.
Proof.
  intros [Hf Hs] Hok. cbv zeta. unfold failed, handleAdmit in *.
  destruct (_ || _); [exfalso; apply Hok; discriminate |].
  cbn [after students metrics m_totalStudents m_totalFees m_hostelOccupancy].
  split; [reflexivity | split].
  - rewrite !totalFees_numbers; [| exact Hs |].
    + rewrite sumBalances_cons. unfold balanceOf. cbn [feesPaid]. now rewrite Hf.
    + intros s [<- | Hin]; [cbn [feesPaid]; now rewrite Hf | now apply Hs].
  - unfold hostelOccupancy. rewrite length_filter_cons. cbn [hostel truthy].
    now destruct (String.eqb (Form.hostel (form st)) "").
Qed.

Lemma metrics_after_admission_witness :
  let st := with_form (initialState "A1" "B2" "C3")
                      (Form.mk "Zara Khan" "Civil" (JNum 2) "C" (JNum 0)) in
  numbersOnly st /\ ~ failed (handleAdmit "Z1" "2025-01-10" st) /\
  m_totalStudents (metrics (after (handleAdmit "Z1" "2025-01-10" st))) = 4 /\
  m_hostelOccupancy (metrics (after (handleAdmit "Z1" "2025-01-10" st))) = 3.
Proof.
  cbv zeta.
  set (st := with_form (initialState "A1" "B2" "C3")
                       (Form.mk "Zara Khan" "Civil" (JNum 2) "C" (JNum 0))).
  assert (numbersOnly st) as Hn.
  { split; [reflexivity |]. intros s [<- | [<- | [<- | []]]]; reflexivity. }
  assert (~ failed (handleAdmit "Z1" "2025-01-10" st)) as Hok.
  { intros H. now apply H. }
  split; [exact Hn | split; [exact Hok |]].
  pose proof (metrics_after_admission "Z1" "2025-01-10" st Hn Hok) as H.
  split; [exact (proj1 H) | exact (proj2 (proj2 H))].
Defined.
